(** * Extraction pipeline of the page-scraping dashboard

    A shallow embedding of the Next.js route handlers that capture HTML
    snapshots, create and train extraction definitions ("ETL
    configurations") and run them, together with the tables of the
    database schema they work on.

    Sources embedded here:
    - the database schema (tables [pages], [html], [etl], [etl_run]);
    - [app/api/pages/[pageId]/html] POST (capture a snapshot);
    - [app/api/pages/[pageId]/etl/learn/route.ts] POST (train a definition);
    - [app/api/pages/[pageId]/etl/route.ts] POST (plain creation);
    - [app/api/pages/[pageId]/etl/[etlId]/run] POST (run a definition);
    - [handleRetrain], [handleCreateEtl] and [getRunsForEtl] of the
      extractions section component;
    - [app/api/pages/route.ts] DELETE (delete a page, with the cascades of
      the schema).

    The handlers are written once, as programs over the effects they
    perform (session lookup, queries, inserts, calls to the scraping
    service).  The same program is given a sequential meaning ([run]) and an
    interleaved one ([pool_step]), where a handler can be suspended while its
    call to the scraping service is in flight. *)

From Stdlib Require Import String Ascii List ZArith Bool Lia.
From stdpp Require Import base option gmap strings list.

Import ListNotations.
Set Warnings "-register-all".
Local Open Scope string_scope.
Local Open Scope list_scope.

(** ** JSON values and their JavaScript reading *)

(** Parsed JSON, as [request.json()] and [response.json()] deliver it.  An
    object keeps its properties in order; parsed objects have distinct keys.
    Numbers are kept as integers: the handlers only ever test a number for
    being zero. *)
Inductive json : Type :=
| JNull
| JBool (b : bool)
| JNum (n : Z)
| JStr (s : string)
| JArr (xs : list json)
| JObj (fields : list (string * json)).

(** [obj[k]] on the property list of an object; [None] is [undefined]. *)
Fixpoint assoc (k : string) (fields : list (string * json)) : option json :=
  match fields with
  | [] => None
  | (k', v) :: rest => if String.eqb k k' then Some v else assoc k rest
  end.

(** [{...fields, k: v}]: an existing property keeps its place and takes the
    new value, a new one goes last. *)
Fixpoint set_field (k : string) (v : json) (fields : list (string * json))
  : list (string * json) :=
  match fields with
  | [] => [(k, v)]
  | (k', v') :: rest =>
      if String.eqb k k' then (k', v) :: rest
      else (k', v') :: set_field k v rest
  end.

(** JavaScript truthiness of a JSON value. *)
Definition truthy (v : json) : bool :=
  match v with
  | JNull => false
  | JBool b => b
  | JNum n => negb (n =? 0)%Z
  | JStr s => negb (String.eqb s "")
  | JArr _ | JObj _ => true
  end.

(** Truthiness of a possibly [undefined] value. *)
Definition truthy_opt (o : option json) : bool :=
  match o with
  | Some v => truthy v
  | None => false
  end.

(** Reading a property [v.k] of a parsed value.  On [null] the access
    throws a TypeError ([None] at the outer level); on an object it is the
    property or [undefined]; the other values have none of the properties
    the handlers ask for. *)
Definition get_prop (v : json) (k : string) : option (option json) :=
  match v with
  | JNull => None
  | JObj fields => Some (assoc k fields)
  | _ => Some None
  end.

(** ** Strings *)

(** A string is UTF-8 encoded text, one [ascii] per byte, as it travels in
    the JSON bodies and as the literals of this file are written. *)

(** [s.length], the number of UTF-16 code units of the text: every code
    point has one byte that is not a continuation byte (10xxxxxx), and a
    code point above U+FFFF, whose first byte is 11110xxx, takes two code
    units. *)
Fixpoint utf16_length (s : string) : nat :=
  match s with
  | EmptyString => 0
  | String c rest =>
      let n := nat_of_ascii c in
      (if ((128 <=? n) && (n <? 192))%nat then 0
       else if (240 <=? n)%nat then 2 else 1)
      + utf16_length rest
  end.

(** The white space removed by [String.prototype.trim] (WhiteSpace and
    LineTerminator of ECMAScript).  In one byte: TAB, LF, VT, FF, CR and
    SPACE. *)
Definition is_space (c : ascii) : bool :=
  let n := nat_of_ascii c in
  (((9 <=? n) && (n <=? 13)) || (n =? 32))%nat.

(** In two bytes: U+00A0 NO-BREAK SPACE. *)
Definition is_space2 (c1 c2 : ascii) : bool :=
  ((nat_of_ascii c1 =? 194) && (nat_of_ascii c2 =? 160))%nat.

(** In three bytes: U+1680, U+2000 to U+200A, U+2028, U+2029, U+202F,
    U+205F, U+3000 and U+FEFF. *)
Definition is_space3 (c1 c2 c3 : ascii) : bool :=
  let n1 := nat_of_ascii c1 in
  let n2 := nat_of_ascii c2 in
  let n3 := nat_of_ascii c3 in
  (((n1 =? 225) && (n2 =? 154) && (n3 =? 128))
   || ((n1 =? 226) && (n2 =? 128)
       && (((128 <=? n3) && (n3 <=? 138))
           || (n3 =? 168) || (n3 =? 169) || (n3 =? 175)))
   || ((n1 =? 226) && (n2 =? 129) && (n3 =? 159))
   || ((n1 =? 227) && (n2 =? 128) && (n3 =? 128))
   || ((n1 =? 239) && (n2 =? 187) && (n3 =? 191)))%nat.

(** [s.trim() === ""]: the text consists of white space only. *)
Fixpoint blank (s : string) : bool :=
  match s with
  | EmptyString => true
  | String c1 rest1 =>
      if is_space c1 then blank rest1
      else
        match rest1 with
        | EmptyString => false
        | String c2 rest2 =>
            if is_space2 c1 c2 then blank rest2
            else
              match rest2 with
              | EmptyString => false
              | String c3 rest3 => is_space3 c1 c2 c3 && blank rest3
              end
        end
  end.

(** Text that a TEXT or JSONB column can hold: PostgreSQL refuses the
    character U+0000. *)
Fixpoint storable (s : string) : bool :=
  match s with
  | EmptyString => true
  | String c rest => negb (nat_of_ascii c =? 0)%nat && storable rest
  end.

(** A JSON value that a JSONB column can hold: no string in it, key or
    value, has the character U+0000. *)
Fixpoint json_storable (v : json) : bool :=
  match v with
  | JNull | JBool _ | JNum _ => true
  | JStr s => storable s
  | JArr xs => forallb json_storable xs
  | JObj fields =>
      forallb (fun kv => storable (fst kv) && json_storable (snd kv)) fields
  end.

Definition newline : string := String (ascii_of_nat 10) EmptyString.

(** ** Tables *)

(** Rows of the four tables of the schema.  Identifiers are UUIDs, kept
    here as opaque strings; a nullable column is an [option]. *)
Record page_row := {
  page_id : string;
  page_created_at : option string;
  page_user_id : string;
  page_url : string }.

Record html_row := {
  html_id : string;
  html_page_id : string;
  html_meta : json;
  html_html : string;
  html_created_at : option string;
  html_user_id : string }.

Record etl_row := {
  etl_id : string;
  etl_user_id : string;
  etl_page_id : string;
  etl_created_at : option string;
  etl_name : option string;
  etl_goal : string;
  etl_src_code : string;
  etl_html_page_run_id : string;
  etl_output_json_schema : option json }.

Record etl_run_row := {
  run_id : string;
  run_user_id : string;
  run_html : string;
  run_etl_id : string;
  run_created_at : option string;
  run_output_json : option json }.

Definition opt_str (o : option string) : json :=
  match o with Some s => JStr s | None => JNull end.

Definition opt_json (o : option json) : json :=
  match o with Some v => v | None => JNull end.

(** A row as the JSON object that [.select()] returns: one property per
    column of the table. *)
Definition html_row_json (r : html_row) : json :=
  JObj [("id", JStr (html_id r)); ("page_id", JStr (html_page_id r));
        ("meta", html_meta r); ("html", JStr (html_html r));
        ("created_at", opt_str (html_created_at r));
        ("user_id", JStr (html_user_id r))].

Definition etl_row_json (r : etl_row) : json :=
  JObj [("id", JStr (etl_id r)); ("user_id", JStr (etl_user_id r));
        ("page_id", JStr (etl_page_id r));
        ("created_at", opt_str (etl_created_at r));
        ("etl_name", opt_str (etl_name r)); ("goal", JStr (etl_goal r));
        ("src_code", JStr (etl_src_code r));
        ("html_page_run_id", JStr (etl_html_page_run_id r));
        ("output_json_schema", opt_json (etl_output_json_schema r))].

Definition etl_run_row_json (r : etl_run_row) : json :=
  JObj [("id", JStr (run_id r)); ("user_id", JStr (run_user_id r));
        ("html", JStr (run_html r)); ("etl_id", JStr (run_etl_id r));
        ("created_at", opt_str (run_created_at r));
        ("output_json", opt_json (run_output_json r))].

(** ** The outside world *)

(** Requests sent to the scraping service.  The HTML of the learn and
    execute requests travels gzip-compressed and base64-encoded with
    [html_compressed: true]; the record keeps the text that is encoded. *)
Record learn_request := {
  lr_url : string;
  lr_html : string;
  lr_goal : json }.

Record execute_request := {
  ex_html : string;
  ex_url : string;
  ex_goal : string;
  ex_code : string }.

Inductive call : Type :=
| GetHtml (url : string)
| LearnEtl (rq : learn_request)
| ExecuteEtl (rq : execute_request).

(** What [fetch] gives back: a rejected promise (the service cannot be
    reached) or a response, of which the handlers read the status, the text
    and the parsed body ([None] when the body is not JSON and
    [response.json()] rejects). *)
Record http_response := {
  resp_status : nat;
  resp_text : string;
  resp_json : option json }.

Inductive fetch_result : Type :=
| NetworkError (message : string)
| Responded (r : http_response).

(** [response.ok] *)
Definition resp_ok (r : http_response) : bool :=
  ((200 <=? resp_status r) && (resp_status r <=? 299))%nat.

(** The database and the log of calls made to the scraping service. *)
Record world := {
  pages : gmap string page_row;
  html : gmap string html_row;
  etl : gmap string etl_row;
  etl_run : gmap string etl_run_row;
  calls : list call }.

(** What one request brings with it and meets: the session of the caller,
    the identifier and timestamp the database will generate for an inserted
    row, the server clock, whether [WEB_SCRAPE_URL] is configured, and the
    behaviour of the scraping service. *)
Record env := {
  session : option string;
  uuid : string;
  db_now : string;
  clock : string;
  scrape_url_set : bool;
  net : call -> fetch_result }.

(** *** Queries

    [.from(t).select().eq("id", ..).eq(..).single()]: the tables are
    indexed by their primary key [id]; the remaining filters are compared
    on the row.  A filter value that is not a string matches no row. *)
Definition select_page (w : world) (id user : string) : option page_row :=
  match pages w !! id with
  | Some r =>
      if String.eqb (page_id r) id && String.eqb (page_user_id r) user
      then Some r else None
  | None => None
  end.

Definition select_html (w : world) (id : json) (page user : string)
  : option html_row :=
  match id with
  | JStr i =>
      match html w !! i with
      | Some r =>
          if String.eqb (html_id r) i && String.eqb (html_page_id r) page
             && String.eqb (html_user_id r) user
          then Some r else None
      | None => None
      end
  | _ => None
  end.

Definition select_etl (w : world) (id page user : string) : option etl_row :=
  match etl w !! id with
  | Some r =>
      if String.eqb (etl_id r) id && String.eqb (etl_page_id r) page
         && String.eqb (etl_user_id r) user
      then Some r else None
  | None => None
  end.

(** *** Inserts

    The constraints are those of the schema: primary keys, NOT NULL
    columns, the foreign keys between the four tables, and the rule that a
    request may only name columns of the table.  A text column takes a JSON
    string; the model refuses any other non-null value for it.  What a
    snapshot or a run stores comes from the scraping service: its text and
    JSON are refused when they are not [storable]. *)
Inductive db_error : Type :=
| NotNullViolation (column : string)
| UniqueViolation (column : string)
| ForeignKeyViolation (column : string)
| UnknownColumn (column : string)
| InvalidText (column : string)
| UntranslatableCharacter (column : string).

Definition db_error_message (e : db_error) : string :=
  match e with
  | NotNullViolation c => "null value violates not-null constraint: " ++ c
  | UniqueViolation c => "duplicate key value violates unique constraint: " ++ c
  | ForeignKeyViolation c => "insert violates foreign key constraint: " ++ c
  | UnknownColumn c => "could not find the column in the schema cache: " ++ c
  | InvalidText c => "invalid input for text column: " ++ c
  | UntranslatableCharacter c =>
      "unsupported Unicode escape sequence, \u0000 cannot be converted to text: "
      ++ c
  end.

(** A small error monad for the checks of an insert. *)
Definition dbres (A : Type) : Type := db_error + A.

Definition dbbind {A B} (m : dbres A) (f : A -> dbres B) : dbres B :=
  match m with
  | inl e => inl e
  | inr a => f a
  end.

Notation "'dblet' x ':=' m 'in' k" := (dbbind m (fun x => k))
  (at level 10, x name, m at level 100, k at level 200).

(** A NOT NULL text column without default. *)
Definition required_text (c : string) (v : option json) : dbres string :=
  match v with
  | None | Some JNull => inl (NotNullViolation c)
  | Some (JStr s) => inr s
  | Some _ => inl (InvalidText c)
  end.

(** A nullable text column; [dflt] is the column default, used when the
    request does not name the column. *)
Definition optional_text (c : string) (dflt : option string) (v : option json)
  : dbres (option string) :=
  match v with
  | None => inr dflt
  | Some JNull => inr None
  | Some (JStr s) => inr (Some s)
  | Some _ => inl (InvalidText c)
  end.

(** A nullable JSONB column: JSON [null] is stored as NULL. *)
Definition optional_jsonb (v : option json) : option json :=
  match v with
  | None | Some JNull => None
  | Some j => Some j
  end.

Definition etl_columns : list string :=
  ["id"; "user_id"; "page_id"; "created_at"; "etl_name"; "goal"; "src_code";
   "html_page_run_id"; "output_json_schema"].

Fixpoint check_columns (cols : list string) (fields : list (string * json))
  : dbres unit :=
  match fields with
  | [] => inr tt
  | (k, _) :: rest =>
      if existsb (String.eqb k) cols then check_columns cols rest
      else inl (UnknownColumn k)
  end.

(** The row of [html] that an insert request carries. *)
Record html_insert := {
  hi_page_id : string;
  hi_html : json;
  hi_meta : json;
  hi_user_id : string }.

(** The row of [etl_run] that an insert request carries. *)
Record run_insert := {
  ri_html : string;
  ri_etl_id : string;
  ri_output_json : json;
  ri_user_id : string }.

Definition insert_html (en : env) (r : html_insert) (w : world)
  : dbres (html_row * world) :=
  dblet h := required_text "html" (Some (hi_html r)) in
  if negb (storable h) then inl (UntranslatableCharacter "html")
  else if negb (json_storable (hi_meta r))
  then inl (UntranslatableCharacter "meta")
  else
  match pages w !! hi_page_id r, html w !! uuid en with
  | None, _ => inl (ForeignKeyViolation "page_id")
  | Some _, Some _ => inl (UniqueViolation "id")
  | Some _, None =>
      let row := {| html_id := uuid en; html_page_id := hi_page_id r;
                    html_meta := hi_meta r; html_html := h;
                    html_created_at := Some (db_now en);
                    html_user_id := hi_user_id r |} in
      inr (row, {| pages := pages w; html := <[uuid en := row]> (html w);
                   etl := etl w; etl_run := etl_run w; calls := calls w |})
  end.

Definition insert_etl (en : env) (fields : list (string * json)) (w : world)
  : dbres (etl_row * world) :=
  dblet _ := check_columns etl_columns fields in
  dblet id := match assoc "id" fields with
         | None => inr (uuid en)
         | v => required_text "id" v
         end in
  dblet user := required_text "user_id" (assoc "user_id" fields) in
  dblet page := required_text "page_id" (assoc "page_id" fields) in
  dblet created := optional_text "created_at" (Some (db_now en))
                (assoc "created_at" fields) in
  dblet name := optional_text "etl_name" None (assoc "etl_name" fields) in
  dblet goal := required_text "goal" (assoc "goal" fields) in
  dblet code := required_text "src_code" (assoc "src_code" fields) in
  dblet snap := required_text "html_page_run_id" (assoc "html_page_run_id" fields) in
  match pages w !! page, etl w !! id with
  | None, _ => inl (ForeignKeyViolation "page_id")
  | Some _, Some _ => inl (UniqueViolation "id")
  | Some _, None =>
      let row := {| etl_id := id; etl_user_id := user; etl_page_id := page;
                    etl_created_at := created; etl_name := name;
                    etl_goal := goal; etl_src_code := code;
                    etl_html_page_run_id := snap;
                    etl_output_json_schema :=
                      optional_jsonb (assoc "output_json_schema" fields) |} in
      inr (row, {| pages := pages w; html := html w;
                   etl := <[id := row]> (etl w);
                   etl_run := etl_run w; calls := calls w |})
  end.

Definition insert_run (en : env) (r : run_insert) (w : world)
  : dbres (etl_run_row * world) :=
  if negb (json_storable (ri_output_json r))
  then inl (UntranslatableCharacter "output_json")
  else
  match html w !! ri_html r, etl w !! ri_etl_id r, etl_run w !! uuid en with
  | None, _, _ => inl (ForeignKeyViolation "html")
  | Some _, None, _ => inl (ForeignKeyViolation "etl_id")
  | Some _, Some _, Some _ => inl (UniqueViolation "id")
  | Some _, Some _, None =>
      let row := {| run_id := uuid en; run_user_id := ri_user_id r;
                    run_html := ri_html r; run_etl_id := ri_etl_id r;
                    run_created_at := Some (db_now en);
                    run_output_json :=
                      optional_jsonb (Some (ri_output_json r)) |} in
      inr (row, {| pages := pages w; html := html w; etl := etl w;
                   etl_run := <[uuid en := row]> (etl_run w);
                   calls := calls w |})
  end.

(** ** Handlers as programs *)

(** The effects of a handler: reading the session, the environment and the
    clock, the queries and inserts above, and [fetch] to the scraping
    service. *)
Inductive eff : Type -> Type :=
| GetUser : eff (option string)
| ScrapeUrlSet : eff bool
| Clock : eff string
| SelectPage (id user : string) : eff (option page_row)
| SelectHtml (id : json) (page user : string) : eff (option html_row)
| SelectEtl (id page user : string) : eff (option etl_row)
| InsertHtml (r : html_insert) : eff (dbres html_row)
| InsertEtl (fields : list (string * json)) : eff (dbres etl_row)
| InsertRun (r : run_insert) : eff (dbres etl_run_row)
| Fetch (c : call) : eff fetch_result.

(** A program returns, throws, or performs an effect and goes on with its
    answer (every effect is behind an [await] in the source). *)
Inductive prog (R : Type) : Type :=
| Ret (r : R)
| Throw
| Vis {X : Type} (e : eff X) (k : X -> prog R).

Arguments Ret {R} r.
Arguments Throw {R}.
Arguments Vis {R X} e k.

Notation "'await' x ':=' e 'in' k" := (Vis e (fun x => k))
  (at level 10, x name, e at level 100, k at level 200).

(** [try { p } catch { h }] *)
Fixpoint catch {R} (p : prog R) (h : prog R) : prog R :=
  match p with
  | Ret r => Ret r
  | Throw => h
  | Vis e k => Vis e (fun x => catch (k x) h)
  end.

Fixpoint pmap {A B} (f : A -> B) (p : prog A) : prog B :=
  match p with
  | Ret r => Ret (f r)
  | Throw => Throw
  | Vis e k => Vis e (fun x => pmap f (k x))
  end.

(** [NextResponse.json(body, { status })] *)
Record response := {
  status : nat;
  body : json }.

(** The statuses that [NextResponse.json] takes.  The constructor of a
    response throws a RangeError for a status outside 200 to 599, and a
    TypeError for a body together with a null body status (101, 103, 204,
    205, 304).  Every status written in the handlers is taken; the one
    status that is not written in them is the scraper's, which the
    snapshot route passes on. *)
Definition response_init_ok (st : nat) : bool :=
  ((200 <=? st) && (st <=? 599)
   && negb ((st =? 204) || (st =? 205) || (st =? 304)))%nat.

Definition error_response (message : string) (st : nat) : response :=
  {| status := st; body := JObj [("error", JStr message)] |}.

Definition internal_error (context : prog response) : prog response :=
  catch context (Ret (error_response "Internal server error" 500)).

(** *** Sequential meaning *)

Definition log_call (c : call) (w : world) : world :=
  {| pages := pages w; html := html w; etl := etl w; etl_run := etl_run w;
     calls := calls w ++ [c] |}.

Definition with_row {A} (r : dbres (A * world)) (w : world)
  : dbres A * world :=
  match r with
  | inl e => (inl e, w)
  | inr (row, w') => (inr row, w')
  end.

(** One effect against the world.  Without [WEB_SCRAPE_URL] the address
    given to [fetch] is not a URL: the promise rejects and nothing is
    sent. *)
Definition handle {X} (e : eff X) (en : env) (w : world) : X * world :=
  match e in eff X return X * world with
  | GetUser => (session en, w)
  | ScrapeUrlSet => (scrape_url_set en, w)
  | Clock => (clock en, w)
  | SelectPage id user => (select_page w id user, w)
  | SelectHtml id page user => (select_html w id page user, w)
  | SelectEtl id page user => (select_etl w id page user, w)
  | InsertHtml r => with_row (insert_html en r w) w
  | InsertEtl fields => with_row (insert_etl en fields w) w
  | InsertRun r => with_row (insert_run en r w) w
  | Fetch c =>
      if scrape_url_set en then (net en c, log_call c w)
      else (NetworkError "Invalid URL", w)
  end.

(** Running a program to its end; [None] is an exception nobody caught. *)
Fixpoint run {R} (p : prog R) (en : env) (w : world) : option R * world :=
  match p with
  | Ret r => (Some r, w)
  | Throw => (None, w)
  | Vis e k => let '(x, w') := handle e en w in run (k x) en w'
  end.

(** What no program over these effects undoes: the pages stay, and the
    other tables and the log of calls only gain entries.  There is no
    update and no delete among the effects; the one route that deletes,
    the DELETE of a page, is given separately below. *)
Definition grows (w w' : world) : Prop :=
  pages w = pages w'
  /\ html w ⊆ html w'
  /\ etl w ⊆ etl w'
  /\ etl_run w ⊆ etl_run w'
  /\ calls w `prefix_of` calls w'.

(** *** Interleaved meaning

    Handlers of different requests run interleaved: a handler runs until
    its next [await] and another one may go on from there.  A query or an
    insert is one step.  A [fetch] takes two: the request is sent, and the
    handler stays suspended until the answer is delivered; in between the
    call is in flight and other handlers take their steps. *)
Inductive thread : Type :=
| Running (p : prog response)
| Awaiting (c : call) (k : fetch_result -> prog response)
| Done (r : option response).

Definition thread_step (en : env) (t : thread) (w : world) : thread * world :=
  match t with
  | Running (Ret r) => (Done (Some r), w)
  | Running Throw => (Done None, w)
  | Running (Vis e k) =>
      match e in eff X return (X -> prog response) -> thread * world with
      | Fetch c => fun k =>
          if scrape_url_set en then (Awaiting c k, log_call c w)
          else (Running (k (NetworkError "Invalid URL")), w)
      | e' => fun k => let '(x, w') := handle e' en w in (Running (k x), w')
      end k
  | Awaiting c k => (Running (k (net en c)), w)
  | Done r => (Done r, w)
  end.

(** Two requests in progress, each with its own environment, over one
    world.  A schedule says whose turn it is: [false] for the first,
    [true] for the second. *)
Record pool := {
  first_env : env;
  first : thread;
  second_env : env;
  second : thread }.

Definition pool_step (turn : bool) (pl : pool) (w : world) : pool * world :=
  if turn then
    let '(t, w') := thread_step (second_env pl) (second pl) w in
    ({| first_env := first_env pl; first := first pl;
        second_env := second_env pl; second := t |}, w')
  else
    let '(t, w') := thread_step (first_env pl) (first pl) w in
    ({| first_env := first_env pl; first := t;
        second_env := second_env pl; second := second pl |}, w').

Fixpoint run_schedule (schedule : list bool) (pl : pool) (w : world)
  : pool * world :=
  match schedule with
  | [] => (pl, w)
  | turn :: rest =>
      let '(pl', w') := pool_step turn pl w in run_schedule rest pl' w'
  end.


Definition answered (t : thread) : option response :=
  match t with
  | Done r => r
  | _ => None
  end.

Definition is_fetch {X} (e : eff X) : bool :=
  match e with
  | Fetch _ => true
  | _ => false
  end.

(** On no path does the program send more than [n] requests to the
    scraping service. *)
Fixpoint sends_at_most {R} (n : nat) (p : prog R) : Prop :=
  match p with
  | Ret _ | Throw => True
  | Vis e k =>
      if is_fetch e then
        match n with
        | 0 => False
        | S m => forall x, sends_at_most m (k x)
        end
      else forall x, sends_at_most n (k x)
  end.












(** ** The route handlers *)

Definition unauthorized : response := error_response "Unauthorized" 401.

Definition page_not_found : response :=
  error_response "Page not found or access denied" 404.

(** [value.length] where it is defined: strings and arrays. *)
Definition js_length (v : json) : option json :=
  match v with
  | JStr s => Some (JNum (Z.of_nat (utf16_length s)))
  | JArr xs => Some (JNum (Z.of_nat (List.length xs)))
  | _ => None
  end.

(** An object literal in which a property whose value is [undefined] is
    left out, as [JSON.stringify] does. *)
Definition defined_fields (fields : list (string * option json))
  : list (string * json) :=
  omap (fun kv => match snd kv with
                  | Some v => Some (fst kv, v)
                  | None => None
                  end) fields.

(** *** Capturing a snapshot: POST [/api/pages/[pageId]/html] *)

Definition html_POST (pageId : string) : prog response :=
  internal_error (
    await user := GetUser in
    match user with
    | None => Ret unauthorized
    | Some uid =>
    await page := SelectPage pageId uid in
    match page with
    | None => Ret page_not_found
    | Some page =>
    await htmlRes := Fetch (GetHtml (page_url page)) in
    match htmlRes with
    | NetworkError _ => Throw
    | Responded htmlRes =>
    if negb (resp_ok htmlRes) then
      if negb (response_init_ok (resp_status htmlRes)) then Throw else
      Ret {| status := resp_status htmlRes;
             body := JObj [("error",
                            JStr "Failed to fetch HTML from scraping service");
                           ("details", JStr (resp_text htmlRes));
                           ("status", JNum (Z.of_nat (resp_status htmlRes)))] |}
    else
    match resp_json htmlRes with
    | None => Throw
    | Some htmlData =>
    let no_html :=
      Ret {| status := 500;
             body := JObj [("error",
                            JStr "No HTML data returned from the scraper");
                           ("received", htmlData)] |} in
    if negb (truthy htmlData) then no_html else
    match get_prop htmlData "html", get_prop htmlData "meta" with
    | Some html_, Some scrapeMeta =>
    if negb (truthy_opt html_) then no_html else
    match html_ with
    | None => no_html
    | Some html =>
    await now := Clock in
    await inserted :=
      InsertHtml
        {| hi_page_id := pageId;
           hi_html := html;
           hi_meta := JObj (defined_fields
             [("url", Some (JStr (page_url page)));
              ("fetch_timestamp", Some (JStr now));
              ("html_length", js_length html);
              ("scraper_service", Some (JStr "pagent-os-api"));
              ("response_status",
               Some (JNum (Z.of_nat (resp_status htmlRes))));
              ("scraper_meta", scrapeMeta)]);
           hi_user_id := uid |} in
    match inserted with
    | inl _ => Ret (error_response "Failed to save HTML run" 500)
    | inr htmlRun =>
        Ret {| status := 201;
               body := JObj [("data", html_row_json htmlRun);
                             ("message",
                              JStr "HTML fetched and saved successfully")] |}
    end
    end
    | _, _ => Throw
    end
    end
    end
    end
    end).

(** *** Training a definition: POST [/api/pages/[pageId]/etl/learn] *)

Definition learn_POST (request : option json) (pageId : string)
  : prog response :=
  internal_error (
    await user := GetUser in
    match user with
    | None => Ret unauthorized
    | Some uid =>
    await pageData := SelectPage pageId uid in
    match pageData with
    | None => Ret page_not_found
    | Some pageData =>
    match request with
    | None => Throw
    | Some body =>
    match get_prop body "goal", get_prop body "html_page_run_id" with
    | Some goal, Some html_page_run_id =>
    if negb (truthy_opt goal) then
      Ret (error_response "Goal is required" 400)
    else if negb (truthy_opt html_page_run_id) then
      Ret (error_response "HTML run selection is required" 400)
    else
    match goal, html_page_run_id with
    | Some goal, Some html_page_run_id =>
    await htmlRunData := SelectHtml html_page_run_id pageId uid in
    match htmlRunData with
    | None => Ret (error_response "HTML run not found or access denied" 404)
    | Some htmlRunData =>
    await learnEtlResponse :=
      Fetch (LearnEtl {| lr_url := page_url pageData;
                         lr_html := html_html htmlRunData;
                         lr_goal := goal |}) in
    match learnEtlResponse with
    | NetworkError _ => Throw
    | Responded learnEtlResponse =>
    if negb (resp_ok learnEtlResponse) then
      Ret (error_response "Failed to process ETL learning" 500)
    else
    match resp_json learnEtlResponse with
    | None => Throw
    | Some learnEtlData =>
    match get_prop learnEtlData "etl_function_code",
          get_prop learnEtlData "entities_schema" with
    | Some etl_function_code, Some entities_schema =>
    match etl_function_code with
    | Some etl_function_code =>
    if negb (truthy etl_function_code) then
      Ret (error_response "ETL function code not generated" 500)
    else
    await inserted :=
      InsertEtl
        [("user_id", JStr uid);
         ("page_id", JStr pageId);
         ("goal", goal);
         ("output_json_schema",
          match entities_schema with
          | Some schema => if truthy schema then schema else JNull
          | None => JNull
          end);
         ("src_code", etl_function_code);
         ("html_page_run_id", html_page_run_id)] in
    match inserted with
    | inl error => Ret (error_response (db_error_message error) 400)
    | inr etl =>
        Ret {| status := 201;
               body := JObj [("data", etl_row_json etl);
                             ("message",
                              JStr "ETL configuration created successfully")] |}
    end
    | None => Ret (error_response "ETL function code not generated" 500)
    end
    | _, _ => Throw
    end
    end
    end
    end
    | _, _ => Throw
    end
    | _, _ => Throw
    end
    end
    end
    end).

(** *** Plain creation of a definition: POST [/api/pages/[pageId]/etl] *)

(** [{ ...body, page_id: pageId, user_id: user.id }] *)
Definition etlData (body : json) (pageId uid : string)
  : list (string * json) :=
  let own := match body with JObj fields => fields | _ => [] end in
  set_field "user_id" (JStr uid) (set_field "page_id" (JStr pageId) own).

Definition etl_POST (request : option json) (pageId : string)
  : prog response :=
  internal_error (
    await user := GetUser in
    match user with
    | None => Ret unauthorized
    | Some uid =>
    await page := SelectPage pageId uid in
    match page with
    | None => Ret page_not_found
    | Some page =>
    match request with
    | None => Throw
    | Some body =>
    match get_prop body "goal", get_prop body "html_page_run_id" with
    | Some goal, Some html_page_run_id =>
    if negb (truthy_opt goal) then
      Ret (error_response "Goal is required" 400)
    else if negb (truthy_opt html_page_run_id) then
      Ret (error_response "HTML run selection is required" 400)
    else
    match html_page_run_id with
    | Some html_page_run_id =>
    await htmlRun := SelectHtml html_page_run_id pageId uid in
    match htmlRun with
    | None => Ret (error_response "HTML run not found or access denied" 404)
    | Some htmlRun =>
    await inserted := InsertEtl (etlData body pageId uid) in
    match inserted with
    | inl error => Ret (error_response (db_error_message error) 400)
    | inr etl =>
        Ret {| status := 201;
               body := JObj [("data", etl_row_json etl);
                             ("message",
                              JStr "ETL configuration created successfully")] |}
    end
    end
    | None => Throw
    end
    | _, _ => Throw
    end
    end
    end
    end).

(** *** Running a definition: POST [/api/pages/[pageId]/etl/[etlId]/run] *)

(** [!src_code || src_code.trim() === ""]: the definition has no source
    code, "it's still in training/loading state". *)
Definition still_training (src_code : string) : bool :=
  String.eqb src_code "" || blank src_code.

Definition run_POST (request : option json) (pageId etlId : string)
  : prog response :=
  internal_error (
    await user := GetUser in
    match user with
    | None => Ret unauthorized
    | Some uid =>
    await page := SelectPage pageId uid in
    match page with
    | None => Ret page_not_found
    | Some page =>
    await etlConfig := SelectEtl etlId pageId uid in
    match etlConfig with
    | None =>
        Ret (error_response "ETL configuration not found or access denied" 404)
    | Some etlConfig =>
    if still_training (etl_src_code etlConfig) then
      Ret (error_response
             "ETL configuration is still being trained. Please wait for training to complete."
             400)
    else
    (* request.json().catch(() => ({})) *)
    let body := match request with Some b => b | None => JObj [] end in
    match get_prop body "html_run_id" with
    | None => Throw
    | Some html_run_id =>
    let with_html_run (selectedHtmlRun : html_row) : prog response :=
      await configured := ScrapeUrlSet in
      if negb configured then
        Ret (error_response "Web scraping service not configured" 500)
      else
      await executeResponse :=
        Fetch (ExecuteEtl {| ex_html := html_html selectedHtmlRun;
                             ex_url := page_url page;
                             ex_goal := etl_goal etlConfig;
                             ex_code := etl_src_code etlConfig |}) in
      match executeResponse with
      | NetworkError message =>
          Ret {| status := 503;
                 body := JObj [("error",
                                JStr "Web scraping service is unavailable. Please ensure the server is running.");
                               ("details", JStr message)] |}
      | Responded executeResponse =>
      if negb (resp_ok executeResponse) then
        Ret (error_response "Failed to execute ETL extraction" 500)
      else
      match resp_json executeResponse with
      | None => Throw
      | Some extractionResult =>
      await inserted :=
        InsertRun {| ri_html := html_id selectedHtmlRun;
                     ri_etl_id := etlId;
                     ri_output_json := extractionResult;
                     ri_user_id := uid |} in
      match inserted with
      | inl _ => Ret (error_response "Failed to save extraction run" 500)
      | inr etlRun =>
          Ret {| status := 201;
                 body := JObj
                   [("data", etl_run_row_json etlRun);
                    ("etl_config", etl_row_json etlConfig);
                    ("html_run",
                     JObj [("id", JStr (html_id selectedHtmlRun));
                           ("created_at",
                            opt_str (html_created_at selectedHtmlRun));
                           ("html_length",
                            JNum (Z.of_nat
                                    (utf16_length
                                       (html_html selectedHtmlRun))))]);
                    ("message",
                     JStr "Extraction run completed successfully")] |}
      end
      end
      end in
    if truthy_opt html_run_id then
      match html_run_id with
      | Some html_run_id =>
          await htmlRun := SelectHtml html_run_id pageId uid in
          match htmlRun with
          | None =>
              Ret (error_response "HTML run not found or access denied" 404)
          | Some htmlRun => with_html_run htmlRun
          end
      | None => Throw
      end
    else
      await htmlRun :=
        SelectHtml (JStr (etl_html_page_run_id etlConfig)) pageId uid in
      match htmlRun with
      | None =>
          Ret (error_response
                 "ETL's associated HTML run not found. Please select a different HTML run."
                 404)
      | Some htmlRun => with_html_run htmlRun
      end
    end
    end
    end
    end).

(** *** Retraining, from the extractions section of the page view *)

(** The body that [handleRetrain] posts. *)
Definition retrain_body (retrainConfig : etl_row) (refinementGoal : string)
  : json :=
  JObj [("goal",
         JStr (etl_goal retrainConfig ++ newline ++ newline
               ++ "Refinement Goal: " ++ refinementGoal));
        ("html_page_run_id", JStr (etl_html_page_run_id retrainConfig));
        ("etl_name",
         JStr (match etl_name retrainConfig with
               | Some name => if String.eqb name "" then "Untitled" else name
               | None => "Untitled"
               end ++ " - Retrained"))].

(** [handleRetrain]: nothing happens without a selected definition or with
    a blank refinement goal; otherwise the body is posted to
    [/api/pages/${pageId}/etl], that is, to [etl_POST]. *)
Definition handleRetrain (pageId : string) (retrainConfig : option etl_row)
    (refinementGoal : string) : prog (option response) :=
  match retrainConfig with
  | None => Ret None
  | Some retrainConfig =>
      if blank refinementGoal then Ret None
      else pmap Some
             (etl_POST (Some (retrain_body retrainConfig refinementGoal))
                pageId)
  end.

(** [handleCreateEtl], the "Train New" form: posts the goal and the chosen
    snapshot to [/api/pages/${pageId}/etl/learn]. *)
Definition handleCreateEtl (pageId goal html_page_run_id : string)
  : prog response :=
  learn_POST (Some (JObj [("goal", JStr goal);
                          ("html_page_run_id", JStr html_page_run_id)]))
    pageId.

(** ** Named responses and a sample store *)

Definition not_ready : response :=
  error_response
    "ETL configuration is still being trained. Please wait for training to complete."
    400.

(** The 201 answer of both routes that create a definition. *)
Definition definition_created (etl : etl_row) : response :=
  {| status := 201;
     body := JObj [("data", etl_row_json etl);
                   ("message",
                    JStr "ETL configuration created successfully")] |}.

Definition no_html_data (received : json) : response :=
  {| status := 500;
     body := JObj [("error", JStr "No HTML data returned from the scraper");
                   ("received", received)] |}.

(** Requests handled one after the other, each with its own environment. *)
Definition run_all (ops : list (env * prog response)) (w : world) : world :=
  fold_left (fun w op => snd (run (snd op) (fst op) w)) ops w.

(** The three ways in which the call to the execute endpoint fails: the
    service cannot be reached, it answers with a status outside 2xx, or its
    body is not JSON. *)
Definition execute_failure (r : fetch_result) : bool :=
  match r with
  | NetworkError _ => true
  | Responded r =>
      negb (resp_ok r) || match resp_json r with Some _ => false | None => true end
  end.

(** The ways in which the call to the learn endpoint fails, as the learn
    route tells them apart: the service cannot be reached, it answers
    outside 2xx, its body is not JSON, or the body has no
    [etl_function_code] (absent or falsy; a [null] body has no properties
    at all). *)
Definition generation_failure (r : fetch_result) : bool :=
  match r with
  | NetworkError _ => true
  | Responded r =>
      negb (resp_ok r)
      || match resp_json r with
         | None => true
         | Some learnEtlData =>
             match get_prop learnEtlData "etl_function_code" with
             | Some code => negb (truthy_opt code)
             | None => true
             end
         end
  end.

(** The snapshot a run works on: the [html_run_id] of the body when it is
    there and truthy, the snapshot the definition was trained on
    otherwise. *)
Definition chosen_html_run (html_run_id : option json) (etlConfig : etl_row)
  : json :=
  match html_run_id with
  | Some v => if truthy v then v else JStr (etl_html_page_run_id etlConfig)
  | None => JStr (etl_html_page_run_id etlConfig)
  end.

(** The body the run route works with: what was posted, or [{}] when
    that is not JSON. *)
Definition run_body (request : option json) : json :=
  match request with Some b => b | None => JObj [] end.

Definition html_run_not_found : response :=
  error_response "HTML run not found or access denied" 404.

Definition definition_not_found : response :=
  error_response "ETL configuration not found or access denied" 404.

(** A small store used to exercise the statements: one page of user [u1]
    with one snapshot, a trained definition [d1] and a definition [d0]
    without source code; a second page [p2] with its own snapshot. *)
Module Sample.

Definition page1 : page_row :=
  {| page_id := "p1"; page_created_at := Some "t0"; page_user_id := "u1";
     page_url := "https://shop.example/item" |}.

Definition page2 : page_row :=
  {| page_id := "p2"; page_created_at := Some "t0"; page_user_id := "u1";
     page_url := "https://shop.example/other" |}.

Definition snap1 : html_row :=
  {| html_id := "s1"; html_page_id := "p1"; html_meta := JObj [];
     html_html := "<html>A</html>"; html_created_at := Some "t1";
     html_user_id := "u1" |}.

Definition snap2 : html_row :=
  {| html_id := "s2"; html_page_id := "p2"; html_meta := JObj [];
     html_html := "<html>B</html>"; html_created_at := Some "t1";
     html_user_id := "u1" |}.

Definition def1 : etl_row :=
  {| etl_id := "d1"; etl_user_id := "u1"; etl_page_id := "p1";
     etl_created_at := Some "t2"; etl_name := None;
     etl_goal := "extract title"; etl_src_code := "def extract(html): pass";
     etl_html_page_run_id := "s1";
     etl_output_json_schema :=
       Some (JObj [("title", JStr "string"); ("price", JStr "number")]) |}.

Definition def0 : etl_row :=
  {| etl_id := "d0"; etl_user_id := "u1"; etl_page_id := "p1";
     etl_created_at := Some "t2"; etl_name := None;
     etl_goal := "extract price"; etl_src_code := "";
     etl_html_page_run_id := "s1"; etl_output_json_schema := None |}.

Definition store : world :=
  {| pages := {["p1" := page1; "p2" := page2]};
     html := {["s1" := snap1; "s2" := snap2]};
     etl := {["d1" := def1; "d0" := def0]};
     etl_run := ∅;
     calls := [] |}.

Definition answer (j : json) : fetch_result :=
  Responded {| resp_status := 200; resp_text := ""; resp_json := Some j |}.

(** A scraping service that answers every request. *)
Definition service (c : call) : fetch_result :=
  match c with
  | GetHtml _ => answer (JObj [("html", JStr "<html>C</html>")])
  | LearnEtl _ =>
      answer (JObj [("etl_function_code", JStr "def extract(html): pass");
                    ("entities_schema", JObj [("title", JStr "string")])])
  | ExecuteEtl _ => answer (JObj [("title", JStr "x")])
  end.

(** Three services that fail: unreachable, answering 500, and answering
    200 with a body that is not JSON. *)
Definition down (c : call) : fetch_result :=
  NetworkError "connect ECONNREFUSED".

Definition failing (c : call) : fetch_result :=
  Responded {| resp_status := 500; resp_text := "boom"; resp_json := None |}.

Definition garbled (c : call) : fetch_result :=
  Responded {| resp_status := 200; resp_text := "<html>"; resp_json := None |}.

(** A scraper that returns a page without HTML. *)
Definition empty_page (c : call) : fetch_result :=
  answer (JObj [("html", JStr ""); ("meta", JObj [])]).

(** A definition written by hand, posted to the plain creation route. *)
Definition handwritten : json :=
  JObj [("goal", JStr "extract title"); ("html_page_run_id", JStr "s1");
        ("src_code", JStr "return 42")].


Definition caller (fresh : string) (service : call -> fetch_result) : env :=
  {| session := Some "u1"; uuid := fresh; db_now := "t3"; clock := "t3";
     scrape_url_set := true; net := service |}.

(** Running the trained definition [d1], whose declared schema has the
    fields [title] and [price], on its snapshot; the service returns an
    output with [title] only. *)
Definition first_run : option response * world :=
  run (run_POST (Some (JObj [("html_run_id", JStr "s1")])) "p1" "d1")
    (caller "r1" service) store.

(** Two requests to run [d1] on [s1], and a schedule that lets each send
    its call before either gets its answer. *)
Definition run_request : option json :=
  Some (JObj [("html_run_id", JStr "s1")]).

Definition two_runs : pool :=
  {| first_env := caller "r1" service;
     first := Running (run_POST run_request "p1" "d1");
     second_env := caller "r2" service;
     second := Running (run_POST run_request "p1" "d1") |}.

Definition until_in_flight : list bool :=
  repeat false 6 ++ repeat true 6.

Definition to_the_end : list bool :=
  repeat false 3 ++ repeat true 3.


End Sample.

(** ** The routes together *)

(** A request to one of the four routes. *)
Inductive route : Type :=
| HtmlPost (pageId : string)
| LearnPost (request : option json) (pageId : string)
| EtlPost (request : option json) (pageId : string)
| RunPost (request : option json) (pageId etlId : string).

Definition serve (r : route) : prog response :=
  match r with
  | HtmlPost pageId => html_POST pageId
  | LearnPost request pageId => learn_POST request pageId
  | EtlPost request pageId => etl_POST request pageId
  | RunPost request pageId etlId => run_POST request pageId etlId
  end.

Definition serve_all (requests : list (env * route)) (w : world) : world :=
  run_all (map (fun '(en, r) => (en, serve r)) requests) w.

(** A run points to a stored snapshot and a stored definition, and the two
    belong to the same page. *)
Definition run_linked (w : world) (r : etl_run_row) : Prop :=
  exists snapshot definition,
    html w !! run_html r = Some snapshot
    /\ etl w !! run_etl_id r = Some definition
    /\ html_page_id snapshot = etl_page_id definition.

Definition runs_linked (w : world) : Prop :=
  forall k r, etl_run w !! k = Some r -> run_linked w r.

Definition is_run_insert {X} (e : eff X) : bool :=
  match e with
  | InsertRun _ => true
  | _ => false
  end.

(** The program has no insert into [etl_run] on any path. *)
Fixpoint no_run_insert {R} (p : prog R) : Prop :=
  match p with
  | Ret _ | Throw => True
  | Vis e k => is_run_insert e = false /\ forall x, no_run_insert (k x)
  end.

(** ** Requests on their own and in company *)

(** The request is answered 201 when it is handled on its own. *)
Definition succeeds_alone (en : env) (request : option json)
    (pageId etlId : string) (w : world) : Prop :=
  status <$> fst (run (run_POST request pageId etlId) en w) = Some 201.

(** [n] steps of one request with nobody else around. *)
Fixpoint thread_steps (n : nat) (en : env) (t : thread) (w : world)
  : thread * world :=
  match n with
  | 0 => (t, w)
  | S m => let '(t', w') := thread_step en t w in thread_steps m en t' w'
  end.

(** The program ends, by returning or throwing, within [n] steps of its
    own; a [fetch] takes two. *)
Fixpoint ends_within {R} (n : nat) (p : prog R) : Prop :=
  match p with
  | Ret _ | Throw => 1 <= n
  | Vis e k =>
      let cost := if is_fetch e then 2 else 1 in
      cost < n /\ forall x, ends_within (n - cost) (k x)
  end.

(** The program returns, and does not throw, within [n] steps. *)
Fixpoint answers_within {R} (n : nat) (p : prog R) : Prop :=
  match p with
  | Ret _ => 1 <= n
  | Throw => False
  | Vis e k =>
      let cost := if is_fetch e then 2 else 1 in
      cost < n /\ forall x, answers_within (n - cost) (k x)
  end.

Definition thread_answers_within (n : nat) (t : thread) : Prop :=
  match t with
  | Running p => answers_within n p
  | Awaiting _ k => 1 < n /\ forall x, answers_within (n - 1) (k x)
  | Done (Some _) => True
  | Done None => False
  end.

(** The turns the first request gets in a schedule. *)
Definition first_turns (schedule : list bool) : nat :=
  length (filter (fun turn => negb turn) schedule).

(** ** The runs shown under a definition *)

(** [getRunsForEtl] of the extractions section: the runs listed under the
    definition [etlId].  A run that carries an [etl_id] is listed under
    that definition; a run without one is listed when its snapshot is
    among the page's snapshots. Nothing is listed before the definitions
    and runs have been loaded, or for a definition that is not among
    them. *)
Definition getRunsForEtl (etls : option (list etl_row))
    (etlRuns : option (list etl_run_row)) (htmlRuns : list html_row)
    (etlId : string) : list etl_run_row :=
  match etlRuns, etls with
  | Some etlRuns, Some etls =>
      match List.find (fun e => String.eqb (etl_id e) etlId) etls with
      | None => []
      | Some _ =>
          List.filter
            (fun run =>
               if negb (String.eqb (run_etl_id run) "")
               then String.eqb (run_etl_id run) etlId
               else
                 let pageHtmlRunIds := map html_id htmlRuns in
                 existsb (String.eqb (run_html run)) pageHtmlRunIds)
            etlRuns
      end
  | _, _ => []
  end.

(** ** Deleting a page *)

(** The rows that go with a page: every foreign key of the schema is
    declared ON DELETE CASCADE, so deleting a page deletes its snapshots
    and definitions, and with them the runs that point to one of them. *)
Definition html_on_page (w : world) (pageId id : string) : bool :=
  match html w !! id with
  | Some s => String.eqb (html_page_id s) pageId
  | None => false
  end.

Definition etl_on_page (w : world) (pageId id : string) : bool :=
  match etl w !! id with
  | Some d => String.eqb (etl_page_id d) pageId
  | None => false
  end.

(** [.from("pages").delete().eq("id", key).eq("user_id", user)], for a
    [key] that the database has read as a UUID. *)
Definition delete_page (w : world) (key user : string) : world :=
  match select_page w key user with
  | None => w
  | Some _ =>
      {| pages := delete key (pages w);
         html := filter (fun kv => html_page_id kv.2 <> key) (html w);
         etl := filter (fun kv => etl_page_id kv.2 <> key) (etl w);
         etl_run :=
           filter (fun kv =>
                     html_on_page w key (run_html kv.2) = false
                     /\ etl_on_page w key (run_etl_id kv.2) = false)
             (etl_run w);
         calls := calls w |}
  end.

(** *** Reading a UUID

    [pages.id] is of type UUID: the database reads the text it is compared
    with as a UUID and refuses the query when the text is none.  It takes
    32 hexadecimal digits in either case, with an optional hyphen after
    any group of four digits and optional braces around the whole, and
    writes a UUID in lower case in the groups 8-4-4-4-12, which is the form
    of the keys of the tables. *)
Definition hex_lower (c : ascii) : option ascii :=
  let n := nat_of_ascii c in
  if ((48 <=? n) && (n <=? 57))%nat then Some c
  else if ((97 <=? n) && (n <=? 102))%nat then Some c
  else if ((65 <=? n) && (n <=? 70))%nat then Some (ascii_of_nat (n + 32))
  else None.

(** The digits of the bytes that are still to be read; [n] bytes remain of
    the sixteen.  A hyphen is skipped after a byte of odd index that is not
    the last. *)
Fixpoint uuid_digits (n : nat) (src : string)
  : option (list ascii * string) :=
  match n with
  | 0 => Some ([], src)
  | S m =>
      match src with
      | String a (String b rest) =>
          match hex_lower a, hex_lower b with
          | Some x, Some y =>
              let i := 16 - n in
              let rest' :=
                match rest with
                | String "-"%char after =>
                    if (Nat.odd i && (i <? 15))%nat then after else rest
                | _ => rest
                end in
              match uuid_digits m rest' with
              | Some (digits, tail) => Some (x :: y :: digits, tail)
              | None => None
              end
          | _, _ => None
          end
      | _ => None
      end
  end.

(** The digits written out, with a hyphen after the digits 8, 12, 16 and
    20; [i] digits have been written. *)
Fixpoint uuid_text (i : nat) (digits : list ascii) : string :=
  match digits with
  | [] => EmptyString
  | d :: rest =>
      let tail := uuid_text (S i) rest in
      String d (if ((i =? 7) || (i =? 11) || (i =? 15) || (i =? 19))%nat
                then String "-"%char tail else tail)
  end.

Definition pg_uuid (text : string) : option string :=
  let '(braces, src) :=
    match text with
    | String "{"%char rest => (true, rest)
    | _ => (false, text)
    end in
  match uuid_digits 16 src with
  | Some (digits, tail) =>
      if String.eqb tail (if braces then "}" else "")
      then Some (uuid_text 0 digits) else None
  | None => None
  end.

Definition double_quote : string := String (ascii_of_nat 34) EmptyString.

Definition invalid_uuid (text : string) : string :=
  "invalid input syntax for type uuid: "
  ++ double_quote ++ text ++ double_quote.

Definition page_deleted : response :=
  {| status := 200;
     body := JObj [("message", JStr "Page deleted successfully")] |}.

(** DELETE [/api/pages?id=...]; [id] is [searchParams.get("id")].  The
    route performs one effect, the delete, and is given here by what it
    answers and leaves behind.  A text that is no UUID makes the query
    fail, and the route answers 400 with the database's message. *)
Definition pages_DELETE (id : option string) (en : env) (w : world)
  : response * world :=
  match session en with
  | None => (unauthorized, w)
  | Some uid =>
      match id with
      | None => (error_response "Page ID is required" 400, w)
      | Some pageId =>
          if String.eqb pageId ""
          then (error_response "Page ID is required" 400, w)
          else
            match pg_uuid pageId with
            | None => (error_response (invalid_uuid pageId) 400, w)
            | Some key => (page_deleted, delete_page w key uid)
            end
      end
  end.

(** A store whose keys are written as the database writes them: two pages
    of one user, each with a snapshot, a definition and a run. *)
Module Library.

Definition owner : string := "0a0a0a0a-0000-4000-8000-00000000000a".
Definition stranger : string := "0b0b0b0b-0000-4000-8000-00000000000b".
Definition page_a : string := "11111111-0000-4000-8000-00000000000a".
Definition page_b : string := "11111111-0000-4000-8000-00000000000b".
Definition snap_a : string := "22222222-0000-4000-8000-00000000000a".
Definition snap_b : string := "22222222-0000-4000-8000-00000000000b".
Definition def_a : string := "33333333-0000-4000-8000-00000000000a".
Definition def_b : string := "33333333-0000-4000-8000-00000000000b".
Definition run_a : string := "44444444-0000-4000-8000-00000000000a".
Definition run_b : string := "44444444-0000-4000-8000-00000000000b".

Definition page_of (id url : string) : page_row :=
  {| page_id := id; page_created_at := Some "t0"; page_user_id := owner;
     page_url := url |}.

Definition snapshot_of (id page : string) : html_row :=
  {| html_id := id; html_page_id := page; html_meta := JObj [];
     html_html := "<html></html>"; html_created_at := Some "t1";
     html_user_id := owner |}.

Definition definition_of (id page snapshot : string) : etl_row :=
  {| etl_id := id; etl_user_id := owner; etl_page_id := page;
     etl_created_at := Some "t2"; etl_name := None;
     etl_goal := "extract title"; etl_src_code := "def extract(html): pass";
     etl_html_page_run_id := snapshot; etl_output_json_schema := None |}.

Definition run_of (id snapshot definition : string) : etl_run_row :=
  {| run_id := id; run_user_id := owner; run_html := snapshot;
     run_etl_id := definition; run_created_at := Some "t3";
     run_output_json := Some (JObj [("title", JStr "x")]) |}.

Definition store : world :=
  {| pages := {[page_a := page_of page_a "https://shop.example/a";
                page_b := page_of page_b "https://shop.example/b"]};
     html := {[snap_a := snapshot_of snap_a page_a;
               snap_b := snapshot_of snap_b page_b]};
     etl := {[def_a := definition_of def_a page_a snap_a;
              def_b := definition_of def_b page_b snap_b]};
     etl_run := {[run_a := run_of run_a snap_a def_a;
                  run_b := run_of run_b snap_b def_b]};
     calls := [] |}.

Definition caller (user : string) : env :=
  {| session := Some user; uuid := "55555555-0000-4000-8000-00000000000a";
     db_now := "t4"; clock := "t4"; scrape_url_set := true;
     net := Sample.service |}.

(** The same page, as a caller may write its identifier. *)
Definition page_a_upper : string := "{11111111-0000-4000-8000-00000000000A}".

End Library.
(** * Properties *)

(** ** Running programs *)

Arguments select_page : simpl never.
Arguments select_html : simpl never.
Arguments select_etl : simpl never.
Arguments insert_html : simpl never.
Arguments insert_etl : simpl never.
Arguments insert_run : simpl never.

Lemma run_catch {R} (p : prog R) (r0 : R) (en : env) (w : world) :
  run (catch p (Ret r0)) en w =
  (Some (default r0 (fst (run p en w))), snd (run p en w)).
Proof.
  revert w. induction p as [r| |X e k IH]; intros w; simpl; try reflexivity.
  destruct (handle e en w) as [x w1]. apply IH.
Qed.

(** A handler always answers: whatever is thrown inside becomes the
    "Internal server error" response. *)
Lemma run_internal_error (p : prog response) (en : env) (w : world) :
  run (internal_error p) en w =
  (Some (default (error_response "Internal server error" 500)
           (fst (run p en w))),
   snd (run p en w)).
Proof. apply run_catch. Qed.

Lemma run_pmap {A B} (f : A -> B) (p : prog A) (en : env) (w : world) :
  run (pmap f p) en w = (f <$> fst (run p en w), snd (run p en w)).
Proof.
  revert w. induction p as [r| |X e k IH]; intros w; simpl; try reflexivity.
  destruct (handle e en w) as [x w1]. apply IH.
Qed.

(** ** Running a definition *)


(** C4. Running a definition that has no source code yet ("still being
    trained") is answered with the 400 "still being trained" error; the
    world is left as it was: no request went to the scraping service and
    no run was stored. *)
Theorem execute_not_ready (en : env) (w : world) (request : option json)
    (pageId etlId uid : string) (page : page_row) (etlConfig : etl_row) :
  session en = Some uid ->
  select_page w pageId uid = Some page ->
  select_etl w etlId pageId uid = Some etlConfig ->
  still_training (etl_src_code etlConfig) = true ->
  run (run_POST request pageId etlId) en w = (Some not_ready, w).
Proof.
  intros Huser Hpage Hetl Htraining.
  unfold run_POST. rewrite run_internal_error. simpl.
  rewrite Huser. simpl. rewrite Hpage. simpl. rewrite Hetl.
  rewrite Htraining. reflexivity.
Qed.

Lemma execute_not_ready_witness :
  run (run_POST (Some (JObj [("html_run_id", JStr "s1")])) "p1" "d0")
    (Sample.caller "r1" Sample.service) Sample.store
  = (Some not_ready, Sample.store).
Proof.
  apply (execute_not_ready _ _ _ "p1" "d0" "u1" Sample.page1 Sample.def0);
    reflexivity.
Defined.

Lemma select_etl_Some (w : world) (id page user : string) (r : etl_row) :
  select_etl w id page user = Some r ->
  etl w !! id = Some r /\ etl_id r = id /\ etl_page_id r = page
  /\ etl_user_id r = user.
Proof.
  unfold select_etl. intros H.
  destruct (etl w !! id) as [r'|] eqn:E; [|discriminate].
  destruct (String.eqb (etl_id r') id) eqn:E1; [|discriminate].
  destruct (String.eqb (etl_page_id r') page) eqn:E2; [|discriminate].
  destruct (String.eqb (etl_user_id r') user) eqn:E3; [|discriminate].
  simpl in H. injection H as <-.
  apply String.eqb_eq in E1, E2, E3. auto.
Qed.

Lemma select_html_Some (w : world) (id : json) (page user : string)
    (r : html_row) :
  select_html w id page user = Some r ->
  id = JStr (html_id r) /\ html w !! html_id r = Some r
  /\ html_page_id r = page /\ html_user_id r = user.
Proof.
  unfold select_html. intros H.
  destruct id as [| | |i| |]; try discriminate.
  destruct (html w !! i) as [r'|] eqn:E; [|discriminate].
  destruct (String.eqb (html_id r') i) eqn:E1; [|discriminate].
  destruct (String.eqb (html_page_id r') page) eqn:E2; [|discriminate].
  destruct (String.eqb (html_user_id r') user) eqn:E3; [|discriminate].
  simpl in H. injection H as <-.
  apply String.eqb_eq in E1, E2, E3. subst. auto.
Qed.

Lemma select_page_Some (w : world) (id user : string) (r : page_row) :
  select_page w id user = Some r ->
  pages w !! id = Some r /\ page_id r = id /\ page_user_id r = user.
Proof.
  unfold select_page. intros H.
  destruct (pages w !! id) as [r'|] eqn:E; [|discriminate].
  destruct (String.eqb (page_id r') id) eqn:E1; [|discriminate].
  destruct (String.eqb (page_user_id r') user) eqn:E2; [|discriminate].
  simpl in H. injection H as <-.
  apply String.eqb_eq in E1, E2. auto.
Qed.

(** C5 (amended). A request to run a definition on a snapshot of another
    page than the definition's always fails, leaves the world as it was
    and so sends nothing to the scraping service; but no answer says that
    the pages differ.  Addressed under the definition's page, the answer
    is the 400 "still being trained" when the definition has no source
    code yet (this is checked before any snapshot is looked up), and
    otherwise the 404 "HTML run not found or access denied" of the
    snapshot lookup, which a snapshot that does not exist gets as well.
    Addressed under any other page of the caller, the snapshot's for
    one, the answer is the 404 "ETL configuration not found or access
    denied". *)
Theorem execute_cross_page (en : env) (w : world) (body : json)
    (pageId etlId uid sid : string) (page : page_row) (etlConfig : etl_row)
    (snapshot : html_row) :
  session en = Some uid ->
  select_page w pageId uid = Some page ->
  select_etl w etlId pageId uid = Some etlConfig ->
  get_prop body "html_run_id" = Some (Some (JStr sid)) ->
  sid <> "" ->
  html w !! sid = Some snapshot ->
  html_page_id snapshot <> etl_page_id etlConfig ->
  run (run_POST (Some body) pageId etlId) en w
  = (Some (if still_training (etl_src_code etlConfig) then not_ready
           else html_run_not_found), w)
  /\ forall otherPage page',
       otherPage <> pageId ->
       select_page w otherPage uid = Some page' ->
       run (run_POST (Some body) otherPage etlId) en w
       = (Some definition_not_found, w).
Proof.
  intros Huser Hpage Hetl Hbody Hsid Hsnap Hcross.
  apply select_etl_Some in Hetl as Hcols.
  destruct Hcols as (Hdef & _ & Hpg & _).
  split.
  - unfold run_POST. rewrite run_internal_error. simpl.
    rewrite Huser. simpl. rewrite Hpage. simpl. rewrite Hetl.
    destruct (still_training (etl_src_code etlConfig)); [reflexivity|].
    rewrite Hbody. simpl. apply String.eqb_neq in Hsid. rewrite Hsid. simpl.
    unfold select_html. rewrite Hsnap.
    destruct (String.eqb (html_page_id snapshot) pageId) eqn:E.
    + apply String.eqb_eq in E. congruence.
    + rewrite andb_false_r. reflexivity.
  - intros otherPage page' Hother Hpage'.
    assert (Hnone : select_etl w etlId otherPage uid = None).
    { unfold select_etl. rewrite Hdef.
      destruct (String.eqb (etl_page_id etlConfig) otherPage) eqn:E.
      - apply String.eqb_eq in E. congruence.
      - by rewrite andb_false_r. }
    unfold run_POST. rewrite run_internal_error. simpl.
    rewrite Huser. simpl. rewrite Hpage'. simpl. by rewrite Hnone.
Qed.

Lemma execute_cross_page_witness :
  run (run_POST (Some (JObj [("html_run_id", JStr "s2")])) "p1" "d1")
    (Sample.caller "r1" Sample.service) Sample.store
  = (Some (if still_training (etl_src_code Sample.def1) then not_ready
           else html_run_not_found), Sample.store)
  /\ forall otherPage page',
       otherPage <> "p1" ->
       select_page Sample.store otherPage "u1" = Some page' ->
       run (run_POST (Some (JObj [("html_run_id", JStr "s2")])) otherPage
              "d1")
         (Sample.caller "r1" Sample.service) Sample.store
       = (Some definition_not_found, Sample.store).
Proof.
  apply (execute_cross_page (Sample.caller "r1" Sample.service)
           Sample.store (JObj [("html_run_id", JStr "s2")]) "p1" "d1" "u1"
           "s2" Sample.page1 Sample.def1 Sample.snap2);
    try reflexivity; discriminate.
Defined.

(** C5 (as stated, refuted). The definition [d0] of page [p1] has no
    source code yet; run on the snapshot [s2] of page [p2], the answer is
    the 400 "still being trained" of an untrained definition, and not an
    answer about the snapshot.  For the trained definition [d1] the answer
    to [s2] is word for word the answer to a snapshot that does not
    exist, and under the snapshot's own page [p2] the answer is that the
    definition was not found. *)
Lemma execute_cross_page_untrained :
  html_page_id Sample.snap2 <> etl_page_id Sample.def0
  /\ run (run_POST (Some (JObj [("html_run_id", JStr "s2")])) "p1" "d0")
       (Sample.caller "r1" Sample.service) Sample.store
     = (Some not_ready, Sample.store)
  /\ not_ready <> html_run_not_found
  /\ run (run_POST (Some (JObj [("html_run_id", JStr "s2")])) "p1" "d1")
       (Sample.caller "r1" Sample.service) Sample.store
     = run (run_POST (Some (JObj [("html_run_id", JStr "nowhere")])) "p1"
              "d1")
         (Sample.caller "r1" Sample.service) Sample.store
  /\ run (run_POST (Some (JObj [("html_run_id", JStr "s2")])) "p2" "d1")
       (Sample.caller "r1" Sample.service) Sample.store
     = (Some definition_not_found, Sample.store).
Proof. repeat split; try reflexivity; discriminate. Qed.

(** Following a handler through its branches. *)
Ltac branch :=
  repeat (simpl in *; try case_match; simplify_eq).

Ltac settle :=
  simpl; repeat split;
  first [ lia | reflexivity | left; reflexivity
        | right; eexists; reflexivity ].

(** C3. When the call to the execute endpoint fails (network error, status
    outside 2xx, or a body that is not JSON), the handler answers with an
    error status, the table of runs is what it was before, and the world
    differs at most by that one logged call: nothing is retried. *)
Theorem execute_failure_persists_nothing (en : env) (w : world)
    (request : option json) (pageId etlId : string) :
  (forall rq, execute_failure (net en (ExecuteEtl rq)) = true) ->
  exists resp w',
    run (run_POST request pageId etlId) en w = (Some resp, w')
    /\ 400 <= status resp
    /\ etl_run w' = etl_run w
    /\ (w' = w \/ exists rq, w' = log_call (ExecuteEtl rq) w).
Proof.
  intros Hfail.
  unfold run_POST. rewrite run_internal_error.
  eexists _, _. split; [reflexivity|].
  simpl.
  destruct (session en) as [uid|]; simpl; [|settle].
  destruct (select_page w pageId uid) as [page|]; simpl;
    [|settle].
  destruct (select_etl w etlId pageId uid) as [etlConfig|]; simpl;
    [|settle].
  destruct (still_training (etl_src_code etlConfig)); simpl;
    [settle|].
  set (body := match request with Some b => b | None => JObj [] end).
  destruct (get_prop body "html_run_id") as [html_run_id|]; simpl;
    [|settle].
  assert (Hcall : forall (snapshot : html_row),
    let rq := {| ex_html := html_html snapshot; ex_url := page_url page;
                 ex_goal := etl_goal etlConfig;
                 ex_code := etl_src_code etlConfig |} in
    forall k : dbres etl_run_row -> prog response,
    let p := await configured := ScrapeUrlSet in
             if negb configured
             then Ret (error_response "Web scraping service not configured" 500)
             else await executeResponse := Fetch (ExecuteEtl rq) in
                  match executeResponse with
                  | NetworkError message =>
                      Ret {| status := 503;
                             body := JObj
                               [("error",
                                 JStr "Web scraping service is unavailable. Please ensure the server is running.");
                                ("details", JStr message)] |}
                  | Responded executeResponse =>
                      if negb (resp_ok executeResponse)
                      then Ret (error_response
                                  "Failed to execute ETL extraction" 500)
                      else match resp_json executeResponse with
                           | None => Throw
                           | Some extractionResult =>
                               await inserted :=
                                 InsertRun
                                   {| ri_html := html_id snapshot;
                                      ri_etl_id := etlId;
                                      ri_output_json := extractionResult;
                                      ri_user_id := uid |} in k inserted
                           end
                  end in
    400 <= status (default (error_response "Internal server error" 500)
                     (fst (run p en w)))
    /\ etl_run (snd (run p en w)) = etl_run w
    /\ (snd (run p en w) = w
        \/ exists rq, snd (run p en w) = log_call (ExecuteEtl rq) w)).
  { intros snapshot rq k p. subst p. simpl.
    destruct (scrape_url_set en) eqn:Hset; simpl; [|settle].
    rewrite Hset.
    specialize (Hfail rq). unfold execute_failure in Hfail.
    destruct (net en (ExecuteEtl rq)) as [message|r]; simpl.
    - settle.
    - destruct (resp_ok r); simpl.
      + destruct (resp_json r); [discriminate|]. simpl.
        settle.
      + settle. }
  destruct (truthy_opt html_run_id).
  - destruct html_run_id as [html_run_id|]; simpl;
      [|settle].
    destruct (select_html w html_run_id pageId uid) as [snapshot|]; simpl;
      [|settle].
    apply Hcall.
  - simpl.
    destruct (select_html w (JStr (etl_html_page_run_id etlConfig)) pageId uid)
      as [snapshot|]; simpl; [|settle].
    apply Hcall.
Qed.

Lemma execute_failure_persists_nothing_witness :
  exists resp w',
    run (run_POST (Some (JObj [])) "p1" "d1")
      (Sample.caller "r1" Sample.down) Sample.store = (Some resp, w')
    /\ 400 <= status resp
    /\ etl_run w' = etl_run Sample.store
    /\ (w' = Sample.store
        \/ exists rq, w' = log_call (ExecuteEtl rq) Sample.store).
Proof.
  apply (execute_failure_persists_nothing
           (Sample.caller "r1" Sample.down) Sample.store).
  intros rq. reflexivity.
Defined.

(** The three failures, as the caller sees them. *)
Example execute_service_down :
  fst (run (run_POST None "p1" "d1") (Sample.caller "r1" Sample.down)
         Sample.store)
  = Some {| status := 503;
            body := JObj
              [("error",
                JStr "Web scraping service is unavailable. Please ensure the server is running.");
               ("details", JStr "connect ECONNREFUSED")] |}.
Proof. reflexivity. Qed.

Example execute_service_failing :
  fst (run (run_POST None "p1" "d1") (Sample.caller "r1" Sample.failing)
         Sample.store)
  = Some (error_response "Failed to execute ETL extraction" 500).
Proof. reflexivity. Qed.

Example execute_service_garbled :
  fst (run (run_POST None "p1" "d1") (Sample.caller "r1" Sample.garbled)
         Sample.store)
  = Some (error_response "Internal server error" 500).
Proof. reflexivity. Qed.

(** ** Snapshots *)

(** C9. When the scraper answers without HTML (no body value, no [html]
    property, or an empty one), the request is refused with the 500 "No
    HTML data returned from the scraper" answer and no snapshot is stored:
    the world only gains the logged call to the scraper. *)
Theorem snapshot_without_html_rejected (en : env) (w : world)
    (pageId uid : string) (page : page_row) (r : http_response)
    (htmlData : json) :
  session en = Some uid ->
  select_page w pageId uid = Some page ->
  scrape_url_set en = true ->
  net en (GetHtml (page_url page)) = Responded r ->
  resp_ok r = true ->
  resp_json r = Some htmlData ->
  (truthy htmlData = false
   \/ exists html_, get_prop htmlData "html" = Some html_
                    /\ truthy_opt html_ = false) ->
  run (html_POST pageId) en w
  = (Some (no_html_data htmlData), log_call (GetHtml (page_url page)) w)
  /\ html (log_call (GetHtml (page_url page)) w) = html w.
Proof.
  intros Huser Hpage Hset Hnet Hok Hjson Hempty.
  split; [|reflexivity].
  unfold html_POST. rewrite run_internal_error. simpl.
  rewrite Huser. simpl. rewrite Hpage. simpl. rewrite Hset, Hnet. simpl.
  rewrite Hok, Hjson. simpl.
  destruct (truthy htmlData) eqn:Htruthy; simpl; [|reflexivity].
  destruct Hempty as [Hfalse|(html_ & Hprop & Hfalsy)]; [discriminate|].
  rewrite Hprop.
  destruct (get_prop htmlData "meta") as [scrapeMeta|] eqn:Hmeta.
  - rewrite Hfalsy. reflexivity.
  - destruct htmlData; discriminate.
Qed.

Lemma snapshot_without_html_rejected_witness :
  run (html_POST "p1") (Sample.caller "s3" Sample.empty_page) Sample.store
  = (Some (no_html_data (JObj [("html", JStr ""); ("meta", JObj [])])),
     log_call (GetHtml "https://shop.example/item") Sample.store)
  /\ html (log_call (GetHtml "https://shop.example/item") Sample.store)
     = html Sample.store.
Proof.
  apply (snapshot_without_html_rejected
           (Sample.caller "s3" Sample.empty_page) Sample.store "p1" "u1"
           Sample.page1
           {| resp_status := 200; resp_text := "";
              resp_json := Some (JObj [("html", JStr ""); ("meta", JObj [])]) |});
    try reflexivity.
  right. exists (Some (JStr "")). split; reflexivity.
Defined.

(** *** The store only grows *)

Lemma grows_refl (w : world) : grows w w.
Proof. unfold grows. repeat split; reflexivity. Qed.

Lemma grows_trans (w1 w2 w3 : world) :
  grows w1 w2 -> grows w2 w3 -> grows w1 w3.
Proof.
  unfold grows. intros (Hp & Hh & He & Hr & Hc) (Hp' & Hh' & He' & Hr' & Hc').
  repeat split; try (etrans; eassumption).
Qed.

Lemma insert_html_grows (en : env) (r : html_insert) (w w' : world)
    (row : html_row) :
  insert_html en r w = inr (row, w') -> grows w w'.
Proof.
  unfold insert_html, dbbind. intros H.
  repeat case_match; simplify_eq.
  unfold grows; simpl. repeat split; try reflexivity.
  by apply insert_subseteq.
Qed.

Lemma insert_etl_grows (en : env) (fields : list (string * json))
    (w w' : world) (row : etl_row) :
  insert_etl en fields w = inr (row, w') -> grows w w'.
Proof.
  unfold insert_etl, dbbind. intros H.
  repeat case_match; simplify_eq;
    unfold grows; simpl; repeat split; try reflexivity;
    by apply insert_subseteq.
Qed.

Lemma insert_run_grows (en : env) (r : run_insert) (w w' : world)
    (row : etl_run_row) :
  insert_run en r w = inr (row, w') -> grows w w'.
Proof.
  unfold insert_run. intros H.
  repeat case_match; simplify_eq.
  unfold grows; simpl. repeat split; try reflexivity.
  by apply insert_subseteq.
Qed.

Lemma log_call_grows (c : call) (w : world) : grows w (log_call c w).
Proof.
  unfold grows; simpl. repeat split; try reflexivity.
  by apply prefix_app_r.
Qed.

Lemma handle_grows {X} (e : eff X) (en : env) (w : world) :
  grows w (snd (handle e en w)).
Proof.
  destruct e; simpl; try apply grows_refl.
  - destruct (insert_html en r w) as [err|[row w']] eqn:E; simpl;
      [apply grows_refl | eapply insert_html_grows; eassumption].
  - destruct (insert_etl en fields w) as [err|[row w']] eqn:E; simpl;
      [apply grows_refl | eapply insert_etl_grows; eassumption].
  - destruct (insert_run en r w) as [err|[row w']] eqn:E; simpl;
      [apply grows_refl | eapply insert_run_grows; eassumption].
  - destruct (scrape_url_set en); simpl;
      [apply log_call_grows | apply grows_refl].
Qed.

Lemma run_grows {R} (p : prog R) (en : env) (w : world) :
  grows w (snd (run p en w)).
Proof.
  revert w. induction p as [r| |X e k IH]; intros w; simpl;
    try apply grows_refl.
  pose proof (handle_grows e en w) as Hstep.
  destruct (handle e en w) as [x w1]. simpl in Hstep.
  eapply grows_trans; [exact Hstep | apply IH].
Qed.

Lemma run_all_grows (ops : list (env * prog response)) (w : world) :
  grows w (run_all ops w).
Proof.
  revert w. induction ops as [|[en p] ops IH]; intros w; simpl.
  - apply grows_refl.
  - eapply grows_trans; [apply (run_grows p en w) | apply IH].
Qed.

Lemma select_html_grows (w w' : world) (id : json) (page user : string)
    (row : html_row) :
  grows w w' ->
  select_html w id page user = Some row ->
  select_html w' id page user = Some row.
Proof.
  intros (_ & Hh & _) Hsel. unfold select_html in *.
  destruct id as [| | |i| |]; try discriminate.
  destruct (html w !! i) as [r|] eqn:E; [|discriminate].
  by rewrite (lookup_weaken _ _ _ _ E Hh).
Qed.

(** C8. A snapshot captured from a scraper answer whose [html] is the
    non-empty text [h] is stored under the generated identifier, and
    reading it back by identifier, page and owner returns a row whose HTML
    is exactly [h]; this stays so after any further requests to the
    snapshot, definition and run routes, none of which updates or deletes
    a row (only deleting the page takes its snapshots with it).  The text
    and the scraper's [meta] are such as the database can hold (without
    the character U+0000), as are the page's URL and the timestamp that go
    into the stored [meta]. *)
Theorem snapshot_roundtrip (en : env) (w : world) (pageId uid : string)
    (page : page_row) (r : http_response) (htmlData : json) (h : string) :
  session en = Some uid ->
  select_page w pageId uid = Some page ->
  scrape_url_set en = true ->
  net en (GetHtml (page_url page)) = Responded r ->
  resp_ok r = true ->
  resp_json r = Some htmlData ->
  get_prop htmlData "html" = Some (Some (JStr h)) ->
  h <> "" ->
  storable h = true ->
  (forall scrapeMeta, get_prop htmlData "meta" = Some (Some scrapeMeta) ->
                      json_storable scrapeMeta = true) ->
  storable (page_url page) = true ->
  storable (clock en) = true ->
  html w !! uuid en = None ->
  exists resp w' row,
    run (html_POST pageId) en w = (Some resp, w')
    /\ status resp = 201
    /\ get_prop (body resp) "data" = Some (Some (html_row_json row))
    /\ html_id row = uuid en
    /\ html_html row = h
    /\ select_html w' (JStr (html_id row)) pageId uid = Some row
    /\ forall ops,
         select_html (run_all ops w') (JStr (html_id row)) pageId uid
         = Some row.
Proof.
  intros Huser Hpage Hset Hnet Hok Hjson Hhtml Hne Hh Hmeta Hurl Hclock
    Hfresh.
  apply select_page_Some in Hpage as Hcols. destruct Hcols as (Hpg & _ & _).
  destruct htmlData as [| | | | |fields]; try discriminate.
  assert (Hrun : exists row w',
    run (html_POST pageId) en w
    = (Some {| status := 201;
               body := JObj [("data", html_row_json row);
                             ("message",
                              JStr "HTML fetched and saved successfully")] |},
       w')
    /\ html_id row = uuid en /\ html_html row = h
    /\ html_page_id row = pageId /\ html_user_id row = uid
    /\ html w' !! uuid en = Some row).
  { unfold html_POST. rewrite run_internal_error. simpl.
    rewrite Huser. simpl. rewrite Hpage. simpl. rewrite Hset, Hnet. simpl.
    rewrite Hok, Hjson. simpl. simpl in Hhtml. injection Hhtml as Hhtml.
    rewrite Hhtml. simpl.
    apply String.eqb_neq in Hne. rewrite Hne. simpl.
    unfold insert_html. simpl. rewrite Hh. simpl.
    rewrite Hurl, Hclock. simpl.
    assert (Hm : forall scrapeMeta, assoc "meta" fields = Some scrapeMeta ->
                                    json_storable scrapeMeta = true).
    { intros scrapeMeta Hm. apply Hmeta. simpl. by rewrite Hm. }
    destruct (assoc "meta" fields) as [scrapeMeta|]; simpl;
      [rewrite (Hm scrapeMeta eq_refl); simpl|];
      rewrite Hpg, Hfresh; simpl;
      (eexists _, _; split; [reflexivity|]; simpl;
       repeat split; apply lookup_insert_eq). }
  destruct Hrun as (row & w' & Hrun & Hid & Hrow & Hp & Hu & Hlook).
  assert (Hsel : select_html w' (JStr (html_id row)) pageId uid = Some row).
  { unfold select_html. rewrite Hid, Hlook, Hid, Hp, Hu.
    by rewrite !String.eqb_refl. }
  eexists _, w', row. split; [exact Hrun|]. simpl.
  repeat split; auto.
  intros ops. eapply select_html_grows; [apply run_all_grows | exact Hsel].
Qed.

Lemma snapshot_roundtrip_witness :
  exists resp w' row,
    run (html_POST "p1") (Sample.caller "s3" Sample.service) Sample.store
    = (Some resp, w')
    /\ status resp = 201
    /\ get_prop (body resp) "data" = Some (Some (html_row_json row))
    /\ html_id row = "s3"
    /\ html_html row = "<html>C</html>"
    /\ select_html w' (JStr (html_id row)) "p1" "u1" = Some row
    /\ forall ops,
         select_html (run_all ops w') (JStr (html_id row)) "p1" "u1"
         = Some row.
Proof.
  apply (snapshot_roundtrip (Sample.caller "s3" Sample.service) Sample.store
           "p1" "u1" Sample.page1
           {| resp_status := 200; resp_text := "";
              resp_json := Some (JObj [("html", JStr "<html>C</html>")]) |}
           (JObj [("html", JStr "<html>C</html>")]));
    try reflexivity; discriminate.
Defined.

(** ** Definitions *)

Lemma assoc_set_field_eq (k : string) (v : json)
    (fields : list (string * json)) :
  assoc k (set_field k v fields) = Some v.
Proof.
  induction fields as [|[k' v'] rest IH]; simpl.
  - by rewrite String.eqb_refl.
  - destruct (String.eqb k k') eqn:E; simpl; rewrite E; [reflexivity|exact IH].
Qed.

Lemma assoc_set_field_ne (k k' : string) (v : json)
    (fields : list (string * json)) :
  k <> k' -> assoc k' (set_field k v fields) = assoc k' fields.
Proof.
  intros Hne. induction fields as [|[k0 v0] rest IH]; simpl.
  - apply not_eq_sym, String.eqb_neq in Hne. by rewrite Hne.
  - destruct (String.eqb k k0) eqn:E; simpl.
    + apply String.eqb_eq in E. subst k0.
      apply not_eq_sym, String.eqb_neq in Hne. by rewrite Hne.
    + by rewrite IH.
Qed.

Lemma dbbind_inr {A B} (m : dbres A) (f : A -> dbres B) (b : B) :
  dbbind m f = inr b -> exists a, m = inr a /\ f a = inr b.
Proof. destruct m as [e|a]; simpl; [discriminate|eauto]. Qed.

Lemma required_text_inr (c : string) (v : option json) (s : string) :
  required_text c v = inr s -> v = Some (JStr s).
Proof.
  unfold required_text. destruct v as [[| | |s'| |]|]; intros H;
    try discriminate. by injection H as ->.
Qed.

(** What a successful insert into [etl] stores. *)
Lemma insert_etl_inr (en : env) (fields : list (string * json))
    (w w' : world) (row : etl_row) :
  insert_etl en fields w = inr (row, w') ->
  assoc "user_id" fields = Some (JStr (etl_user_id row))
  /\ assoc "page_id" fields = Some (JStr (etl_page_id row))
  /\ assoc "goal" fields = Some (JStr (etl_goal row))
  /\ assoc "src_code" fields = Some (JStr (etl_src_code row))
  /\ assoc "html_page_run_id" fields
     = Some (JStr (etl_html_page_run_id row))
  /\ etl_output_json_schema row
     = optional_jsonb (assoc "output_json_schema" fields)
  /\ etl w !! etl_id row = None
  /\ w' = {| pages := pages w; html := html w;
             etl := <[etl_id row := row]> (etl w);
             etl_run := etl_run w; calls := calls w |}.
Proof.
  unfold insert_etl. intros H.
  apply dbbind_inr in H as (_ & _ & H).
  apply dbbind_inr in H as (id & _ & H).
  apply dbbind_inr in H as (user & Huser & H).
  apply dbbind_inr in H as (page & Hpage & H).
  apply dbbind_inr in H as (created & _ & H).
  apply dbbind_inr in H as (name & _ & H).
  apply dbbind_inr in H as (goal & Hgoal & H).
  apply dbbind_inr in H as (code & Hcode & H).
  apply dbbind_inr in H as (snap & Hsnap & H).
  apply required_text_inr in Huser, Hpage, Hgoal, Hcode, Hsnap.
  destruct (pages w !! page); [|discriminate].
  destruct (etl w !! id) eqn:Hfresh; [discriminate|].
  simplify_eq. simpl. repeat split; assumption.
Qed.

(** *** Programs that send nothing *)


Lemma sends_at_most_catch {R} (n : nat) (p : prog R) (r : R) :
  sends_at_most n p -> sends_at_most n (catch p (Ret r)).
Proof.
  revert n. induction p as [r'| |X e k IH]; intros n; simpl; auto.
  destruct (is_fetch e).
  - destruct n as [|n]; [tauto|]. intros H x. apply IH, H.
  - intros H x. apply IH, H.
Qed.

Lemma handle_calls {X} (e : eff X) (en : env) (w : world) :
  is_fetch e = false -> calls (snd (handle e en w)) = calls w.
Proof.
  destruct e; simpl; try reflexivity; try discriminate; intros _.
  - unfold insert_html, dbbind. repeat case_match; reflexivity.
  - destruct (insert_etl en fields w) as [err|[row w']] eqn:E;
      [reflexivity|].
    apply insert_etl_inr in E. destruct E as (_&_&_&_&_&_&_&->).
    reflexivity.
  - unfold insert_run. repeat case_match; reflexivity.
Qed.

Lemma run_sends_nothing {R} (p : prog R) (en : env) (w : world) :
  sends_at_most 0 p -> calls (snd (run p en w)) = calls w.
Proof.
  revert w. induction p as [r| |X e k IH]; intros w; simpl; auto.
  destruct (is_fetch e) eqn:Hfetch; [tauto|]. intros Hk.
  pose proof (handle_calls e en w Hfetch) as Hstep.
  destruct (handle e en w) as [x w1]. simpl in Hstep.
  rewrite IH by apply Hk. exact Hstep.
Qed.

(** The plain creation route has no [fetch] on any of its paths. *)
Lemma etl_POST_sends_nothing (request : option json) (pageId : string) :
  sends_at_most 0 (etl_POST request pageId).
Proof.
  unfold etl_POST, internal_error. apply sends_at_most_catch.
  simpl. intros [uid|]; simpl; [|exact I].
  intros [page|]; simpl; [|exact I].
  destruct request as [body_|]; simpl; [|exact I].
  destruct (get_prop body_ "goal") as [goal|]; simpl; [|exact I].
  destruct (get_prop body_ "html_page_run_id") as [sid|]; simpl; [|exact I].
  destruct (negb (truthy_opt goal)); simpl; [exact I|].
  destruct (negb (truthy_opt sid)); simpl; [exact I|].
  destruct sid as [sid|]; simpl; [|exact I].
  intros [snapshot|]; simpl; [|exact I].
  intros [e|row]; exact I.
Qed.

(** *** The row built from the body *)

Lemma check_columns_set_field (cols : list string) (k : string) (v : json)
    (fields : list (string * json)) :
  existsb (String.eqb k) cols = true ->
  check_columns cols fields = inr tt ->
  check_columns cols (set_field k v fields) = inr tt.
Proof.
  intros Hk. induction fields as [|[k' v'] rest IH]; simpl.
  - by rewrite Hk.
  - destruct (existsb (String.eqb k') cols) eqn:Hk'; [|discriminate].
    intros Hrest. destruct (String.eqb k k'); simpl; rewrite Hk'; auto.
Qed.

(** [{ ...body, page_id, user_id }] has the page of the request and the
    caller under [page_id] and [user_id], whatever the body says there,
    and every other property as the body has it. *)
Lemma etlData_fields (fields : list (string * json)) (pageId uid : string)
    (k : string) :
  assoc k (etlData (JObj fields) pageId uid)
  = if String.eqb k "user_id" then Some (JStr uid)
    else if String.eqb k "page_id" then Some (JStr pageId)
    else assoc k fields.
Proof.
  unfold etlData.
  destruct (String.eqb k "user_id") eqn:Hu.
  { apply String.eqb_eq in Hu. subst k. apply assoc_set_field_eq. }
  apply String.eqb_neq in Hu.
  rewrite assoc_set_field_ne by congruence.
  destruct (String.eqb k "page_id") eqn:Hp.
  { apply String.eqb_eq in Hp. subst k. apply assoc_set_field_eq. }
  apply String.eqb_neq in Hp.
  by rewrite assoc_set_field_ne by congruence.
Qed.

(** C10. The plain creation route never calls the scraping service,
    whatever the request.  For a request that names a page of the caller
    and one of its snapshots, and whose body has a goal, source code, and
    otherwise only columns of the table (no identifier and no timestamp of
    its own, text that the database can hold), the route stores one
    definition and answers 201 with it: the row has the goal, the source
    code, the snapshot, the name and the schema of the body, verbatim, the
    page of the request and the caller; the source code is whatever the
    caller wrote.  The row that is inserted is the body with [page_id]
    and [user_id] set. *)
Theorem create_definition_direct (en : env) (w : world)
    (fields : list (string * json)) (pageId uid goal sid code : string)
    (name : option string) (page : page_row) (snapshot : html_row) :
  session en = Some uid ->
  select_page w pageId uid = Some page ->
  check_columns etl_columns fields = inr tt ->
  assoc "id" fields = None ->
  assoc "created_at" fields = None ->
  assoc "goal" fields = Some (JStr goal) ->
  goal <> "" ->
  assoc "html_page_run_id" fields = Some (JStr sid) ->
  sid <> "" ->
  assoc "src_code" fields = Some (JStr code) ->
  optional_text "etl_name" None (assoc "etl_name" fields) = inr name ->
  select_html w (JStr sid) pageId uid = Some snapshot ->
  storable goal = true ->
  storable code = true ->
  (forall n, name = Some n -> storable n = true) ->
  (forall schema, assoc "output_json_schema" fields = Some schema ->
                  json_storable schema = true) ->
  etl w !! uuid en = None ->
  let row := {| etl_id := uuid en; etl_user_id := uid; etl_page_id := pageId;
                etl_created_at := Some (db_now en); etl_name := name;
                etl_goal := goal; etl_src_code := code;
                etl_html_page_run_id := sid;
                etl_output_json_schema :=
                  optional_jsonb (assoc "output_json_schema" fields) |} in
  run (etl_POST (Some (JObj fields)) pageId) en w
  = (Some (definition_created row),
     {| pages := pages w; html := html w;
        etl := <[uuid en := row]> (etl w);
        etl_run := etl_run w; calls := calls w |})
  /\ insert_etl en (etlData (JObj fields) pageId uid) w
     = inr (row, {| pages := pages w; html := html w;
                    etl := <[uuid en := row]> (etl w);
                    etl_run := etl_run w; calls := calls w |})
  /\ (forall k,
        assoc k (etlData (JObj fields) pageId uid)
        = if String.eqb k "user_id" then Some (JStr uid)
          else if String.eqb k "page_id" then Some (JStr pageId)
          else assoc k fields)
  /\ (forall request pageId' en' w',
        calls (snd (run (etl_POST request pageId') en' w')) = calls w').
Proof.
  intros Huser Hpage Hcols Hid Hcreated Hgoal Hgoal_ne Hsid Hsid_ne Hcode
    Hname Hsnap _ _ _ _ Hfresh row.
  apply select_page_Some in Hpage as Hrow. destruct Hrow as (Hpg & _ & _).
  assert (Hinsert : insert_etl en (etlData (JObj fields) pageId uid) w
    = inr (row, {| pages := pages w; html := html w;
                   etl := <[uuid en := row]> (etl w);
                   etl_run := etl_run w; calls := calls w |})).
  { unfold insert_etl.
    rewrite !etlData_fields. simpl.
    unfold etlData.
    rewrite check_columns_set_field;
      [|reflexivity
       |apply check_columns_set_field; [reflexivity|exact Hcols]].
    simpl. rewrite Hid, Hcreated, Hname, Hgoal, Hcode, Hsid. simpl.
    by rewrite Hpg, Hfresh. }
  split; [|split; [exact Hinsert|split]].
  - apply String.eqb_neq in Hgoal_ne, Hsid_ne.
    unfold etl_POST. rewrite run_internal_error. simpl.
    rewrite Huser. simpl. rewrite Hpage. simpl. rewrite Hgoal, Hsid. simpl.
    rewrite Hgoal_ne, Hsid_ne. simpl. rewrite Hsnap. simpl.
    by rewrite Hinsert.
  - apply etlData_fields.
  - intros request pageId' en' w'.
    apply run_sends_nothing, etl_POST_sends_nothing.
Qed.

Lemma create_definition_direct_witness :
  let en := Sample.caller "d9" Sample.service in
  let fields := [("goal", JStr "extract title");
                 ("html_page_run_id", JStr "s1");
                 ("src_code", JStr "return 42")] in
  let row := {| etl_id := "d9"; etl_user_id := "u1"; etl_page_id := "p1";
                etl_created_at := Some "t3"; etl_name := None;
                etl_goal := "extract title"; etl_src_code := "return 42";
                etl_html_page_run_id := "s1";
                etl_output_json_schema :=
                  optional_jsonb (assoc "output_json_schema" fields) |} in
  run (etl_POST (Some (JObj fields)) "p1") en Sample.store
  = (Some (definition_created row),
     {| pages := pages Sample.store; html := html Sample.store;
        etl := <["d9" := row]> (etl Sample.store);
        etl_run := etl_run Sample.store; calls := calls Sample.store |})
  /\ insert_etl en (etlData (JObj fields) "p1" "u1") Sample.store
     = inr (row, {| pages := pages Sample.store; html := html Sample.store;
                    etl := <["d9" := row]> (etl Sample.store);
                    etl_run := etl_run Sample.store;
                    calls := calls Sample.store |})
  /\ (forall k,
        assoc k (etlData (JObj fields) "p1" "u1")
        = if String.eqb k "user_id" then Some (JStr "u1")
          else if String.eqb k "page_id" then Some (JStr "p1")
          else assoc k fields)
  /\ (forall request pageId' en' w',
        calls (snd (run (etl_POST request pageId') en' w')) = calls w').
Proof.
  apply (create_definition_direct (Sample.caller "d9" Sample.service)
           Sample.store
           [("goal", JStr "extract title"); ("html_page_run_id", JStr "s1");
            ("src_code", JStr "return 42")]
           "p1" "u1" "extract title" "s1" "return 42" None Sample.page1
           Sample.snap1);
    try reflexivity; try discriminate.
Defined.

(** The hand-written definition is stored as it was posted, and the
    scraping service saw nothing of it. *)
Example handwritten_definition_stored :
  let w' := snd (run (etl_POST (Some Sample.handwritten) "p1")
                   (Sample.caller "d9" Sample.service) Sample.store) in
  etl_src_code <$> etl w' !! "d9" = Some "return 42" /\ calls w' = [].
Proof. split; reflexivity. Qed.

(** A body that names another page and another user: the row is stored
    under the page of the request and the caller all the same. *)
Example handwritten_definition_owner :
  let body_ := JObj [("goal", JStr "extract title");
                     ("html_page_run_id", JStr "s1");
                     ("src_code", JStr "return 42");
                     ("page_id", JStr "p2"); ("user_id", JStr "u2")] in
  let w' := snd (run (etl_POST (Some body_) "p1")
                   (Sample.caller "d9" Sample.service) Sample.store) in
  etl_page_id <$> etl w' !! "d9" = Some "p1"
  /\ etl_user_id <$> etl w' !! "d9" = Some "u1".
Proof. split; reflexivity. Qed.

Ltac refused :=
  simpl; eexists; split;
  [reflexivity | intros resp Hresp; simplify_eq; simpl; lia].

(** C7 (what the code does). [handleRetrain] posts the composed goal and
    the parent's snapshot to the plain creation route, without source
    code.  That route generates none, and the [etl] table requires
    [src_code]: whatever the store, the caller, the parent definition and
    the refinement goal, the world after the call is the world before it.
    No definition is created, no request reaches the scraping service, and
    the answer, if any request was sent, is an error. *)
Theorem retrain_creates_nothing (en : env) (w : world) (pageId : string)
    (parent : etl_row) (refinementGoal : string) :
  exists answer,
    run (handleRetrain pageId (Some parent) refinementGoal) en w
    = (Some answer, w)
    /\ forall resp, answer = Some resp -> 400 <= status resp.
Proof.
  unfold handleRetrain.
  destruct (blank refinementGoal).
  { exists None. split; [reflexivity|discriminate]. }
  rewrite run_pmap. unfold etl_POST. rewrite run_internal_error. simpl.
  destruct (session en) as [uid|]; simpl; [|refused].
  destruct (select_page w pageId uid); simpl; [|refused].
  destruct (negb _); simpl; [refused|].
  destruct (negb _); simpl; [refused|].
  destruct (select_html _ _ _ _); simpl; [|refused].
  refused.
Qed.

(** Retraining the trained sample definition: the database refuses the row
    for want of source code, and the definitions are those of before. *)
Example retrain_sample :
  run (handleRetrain "p1" (Some Sample.def1) "also extract price")
    (Sample.caller "d2" Sample.service) Sample.store
  = (Some (Some (error_response
                   (db_error_message (NotNullViolation "src_code")) 400)),
     Sample.store).
Proof. reflexivity. Qed.

(** The body that retraining posts: the composed goal and the parent's
    snapshot, and no source code. *)
Lemma retrain_body_fields (parent : etl_row) (refinementGoal : string) :
  get_prop (retrain_body parent refinementGoal) "goal"
  = Some (Some (JStr (etl_goal parent ++ newline ++ newline
                      ++ "Refinement Goal: " ++ refinementGoal)))
  /\ get_prop (retrain_body parent refinementGoal) "html_page_run_id"
     = Some (Some (JStr (etl_html_page_run_id parent)))
  /\ get_prop (retrain_body parent refinementGoal) "src_code" = Some None.
Proof. repeat split. Qed.



(** ** What a run stores *)

Ltac dismiss :=
  simpl; intros Hrun H201; simplify_eq; simpl in H201; discriminate.

(** C6 (amended). A run that succeeds (201) stores exactly one row: the
    generated identifier and timestamp, the caller, the snapshot used, the
    definition, and the output of the execute endpoint as it came.  The
    declared schema of the definition takes no part in it, and the stored
    row, like the [data] of the answer, has no [drifted] property. *)
Theorem execute_persists_raw_output (en : env) (w w' : world)
    (request : option json) (pageId etlId : string) (resp : response) :
  run (run_POST request pageId etlId) en w = (Some resp, w') ->
  status resp = 201 ->
  exists uid page etlConfig snapshot r output,
    let rq := {| ex_html := html_html snapshot; ex_url := page_url page;
                 ex_goal := etl_goal etlConfig;
                 ex_code := etl_src_code etlConfig |} in
    let row := {| run_id := uuid en; run_user_id := uid;
                  run_html := html_id snapshot; run_etl_id := etlId;
                  run_created_at := Some (db_now en);
                  run_output_json := optional_jsonb (Some output) |} in
    session en = Some uid
    /\ select_page w pageId uid = Some page
    /\ select_etl w etlId pageId uid = Some etlConfig
    /\ html w !! html_id snapshot = Some snapshot
    /\ html_page_id snapshot = pageId
    /\ net en (ExecuteEtl rq) = Responded r
    /\ resp_json r = Some output
    /\ etl_run w !! uuid en = None
    /\ w' = {| pages := pages w; html := html w; etl := etl w;
               etl_run := <[uuid en := row]> (etl_run w);
               calls := calls w ++ [ExecuteEtl rq] |}
    /\ get_prop (body resp) "data" = Some (Some (etl_run_row_json row))
    /\ get_prop (etl_run_row_json row) "drifted" = Some None.
Proof.
  unfold run_POST. rewrite run_internal_error. simpl.
  destruct (session en) as [uid|] eqn:Huser; [|dismiss]. simpl.
  destruct (select_page w pageId uid) as [page|] eqn:Hpage; [|dismiss].
  simpl.
  destruct (select_etl w etlId pageId uid) as [etlConfig|] eqn:Hetl;
    [|dismiss].
  destruct (still_training (etl_src_code etlConfig)); [dismiss|].
  set (body_ := match request with Some b => b | None => JObj [] end).
  destruct (get_prop body_ "html_run_id") as [html_run_id|]; [|dismiss].
  assert (Hcall : forall snapshot,
    html w !! html_id snapshot = Some snapshot ->
    html_page_id snapshot = pageId ->
    forall etl_config_json,
    let p := await configured := ScrapeUrlSet in
      if negb configured
      then Ret (error_response "Web scraping service not configured" 500)
      else await executeResponse :=
             Fetch (ExecuteEtl {| ex_html := html_html snapshot;
                                  ex_url := page_url page;
                                  ex_goal := etl_goal etlConfig;
                                  ex_code := etl_src_code etlConfig |}) in
           match executeResponse with
           | NetworkError message =>
               Ret {| status := 503;
                      body := JObj
                        [("error",
                          JStr "Web scraping service is unavailable. Please ensure the server is running.");
                         ("details", JStr message)] |}
           | Responded executeResponse =>
               if negb (resp_ok executeResponse)
               then Ret (error_response "Failed to execute ETL extraction" 500)
               else match resp_json executeResponse with
                    | None => Throw
                    | Some extractionResult =>
                        await inserted :=
                          InsertRun {| ri_html := html_id snapshot;
                                       ri_etl_id := etlId;
                                       ri_output_json := extractionResult;
                                       ri_user_id := uid |} in
                        match inserted with
                        | inl _ =>
                            Ret (error_response
                                   "Failed to save extraction run" 500)
                        | inr etlRun =>
                            Ret {| status := 201;
                                   body := JObj
                                     [("data", etl_run_row_json etlRun);
                                      ("etl_config", etl_config_json);
                                      ("html_run",
                                       JObj [("id", JStr (html_id snapshot));
                                             ("created_at",
                                              opt_str (html_created_at snapshot));
                                             ("html_length",
                                              JNum (Z.of_nat
                                                      (utf16_length
                                                         (html_html snapshot))))]);
                                      ("message",
                                       JStr "Extraction run completed successfully")] |}
                        end
                    end
           end in
    (Some (default (error_response "Internal server error" 500)
             (fst (run p en w))), snd (run p en w)) = (Some resp, w') ->
    status resp = 201 ->
    exists r output,
      let rq := {| ex_html := html_html snapshot; ex_url := page_url page;
                   ex_goal := etl_goal etlConfig;
                   ex_code := etl_src_code etlConfig |} in
      let row := {| run_id := uuid en; run_user_id := uid;
                    run_html := html_id snapshot; run_etl_id := etlId;
                    run_created_at := Some (db_now en);
                    run_output_json := optional_jsonb (Some output) |} in
      net en (ExecuteEtl rq) = Responded r
      /\ resp_json r = Some output
      /\ etl_run w !! uuid en = None
      /\ w' = {| pages := pages w; html := html w; etl := etl w;
                 etl_run := <[uuid en := row]> (etl_run w);
                 calls := calls w ++ [ExecuteEtl rq] |}
      /\ get_prop (body resp) "data" = Some (Some (etl_run_row_json row))).
  { intros snapshot Hsnap Hsnap_page etl_config_json p. subst p. simpl.
    destruct (scrape_url_set en) eqn:Hset; [|dismiss]. simpl. rewrite Hset.
    destruct (net en (ExecuteEtl _)) as [message|r] eqn:Hnet; [dismiss|].
    simpl.
    destruct (resp_ok r); [|dismiss]. simpl.
    destruct (resp_json r) as [output|] eqn:Hjson; [|dismiss]. simpl.
    unfold insert_run. simpl.
    destruct (json_storable output); [|dismiss]. simpl. rewrite Hsnap.
    destruct (etl w !! etlId); [|dismiss].
    destruct (etl_run w !! uuid en) eqn:Hfresh; [dismiss|].
    simpl. intros Hrun H201. simplify_eq.
    exists r, output. simpl. repeat split; auto. }
  destruct (truthy_opt html_run_id).
  - destruct html_run_id as [html_run_id|]; [|dismiss]. simpl.
    destruct (select_html w html_run_id pageId uid) as [snapshot|] eqn:Hsel;
      [|dismiss].
    apply select_html_Some in Hsel as (_ & Hsnap & Hsnap_page & _).
    intros Hrun H201.
    destruct (Hcall snapshot Hsnap Hsnap_page _ Hrun H201)
      as (r & output & Hnet & Hjson & Hfresh & Hw & Hdata).
    exists uid, page, etlConfig, snapshot, r, output. simpl.
    repeat split; auto.
  - simpl.
    destruct (select_html w (JStr (etl_html_page_run_id etlConfig)) pageId uid)
      as [snapshot|] eqn:Hsel; [|dismiss].
    apply select_html_Some in Hsel as (_ & Hsnap & Hsnap_page & _).
    intros Hrun H201.
    destruct (Hcall snapshot Hsnap Hsnap_page _ Hrun H201)
      as (r & output & Hnet & Hjson & Hfresh & Hw & Hdata).
    exists uid, page, etlConfig, snapshot, r, output. simpl.
    repeat split; auto.
Qed.

Lemma execute_persists_raw_output_witness :
  exists uid page etlConfig snapshot r output,
    let rq := {| ex_html := html_html snapshot; ex_url := page_url page;
                 ex_goal := etl_goal etlConfig;
                 ex_code := etl_src_code etlConfig |} in
    let row := {| run_id := "r1"; run_user_id := uid;
                  run_html := html_id snapshot; run_etl_id := "d1";
                  run_created_at := Some "t3";
                  run_output_json := optional_jsonb (Some output) |} in
    Some "u1" = Some uid
    /\ select_page Sample.store "p1" uid = Some page
    /\ select_etl Sample.store "d1" "p1" uid = Some etlConfig
    /\ html Sample.store !! html_id snapshot = Some snapshot
    /\ html_page_id snapshot = "p1"
    /\ Sample.service (ExecuteEtl rq) = Responded r
    /\ resp_json r = Some output
    /\ etl_run Sample.store !! "r1" = None
    /\ snd Sample.first_run
       = {| pages := pages Sample.store; html := html Sample.store;
            etl := etl Sample.store;
            etl_run := <["r1" := row]> (etl_run Sample.store);
            calls := calls Sample.store ++ [ExecuteEtl rq] |}
    /\ get_prop (body (default unauthorized (fst Sample.first_run))) "data"
       = Some (Some (etl_run_row_json row))
    /\ get_prop (etl_run_row_json row) "drifted" = Some None.
Proof.
  apply (execute_persists_raw_output (Sample.caller "r1" Sample.service)
           Sample.store (snd Sample.first_run)
           (Some (JObj [("html_run_id", JStr "s1")])) "p1" "d1"
           (default unauthorized (fst Sample.first_run)));
    reflexivity.
Defined.

(** C6 (as stated, refuted). The definition [d1] declares the fields
    [title] and [price]; the run output has [title] only.  The run is
    stored and answered with 201, and neither the stored row nor the answer
    says [drifted: true]: the property does not exist. *)
Lemma run_record_has_no_drift_flag :
  exists resp row,
    fst Sample.first_run = Some resp
    /\ status resp = 201
    /\ etl_output_json_schema Sample.def1
       = Some (JObj [("title", JStr "string"); ("price", JStr "number")])
    /\ etl_run (snd Sample.first_run) !! "r1" = Some row
    /\ run_output_json row = Some (JObj [("title", JStr "x")])
    /\ get_prop (body resp) "data" = Some (Some (etl_run_row_json row))
    /\ get_prop (etl_run_row_json row) "drifted" = Some None
    /\ get_prop (etl_run_row_json row) "drifted" <> Some (Some (JBool true)).
Proof.
  eexists _, _. repeat split; try reflexivity. discriminate.
Qed.

(** ** Requests that overlap *)


(** *** At most one call per request *)


(** Only the insert of a run changes the table of runs. *)
Lemma handle_etl_run {X} (e : eff X) (en : env) (w : world) :
  is_run_insert e = false -> etl_run (snd (handle e en w)) = etl_run w.
Proof.
  destruct e; simpl; try reflexivity; try discriminate; intros _.
  - unfold insert_html, dbbind. repeat case_match; reflexivity.
  - destruct (insert_etl en fields w) as [err|[row w']] eqn:E;
      [reflexivity|].
    apply insert_etl_inr in E. destruct E as (_&_&_&_&_&_&_&->).
    reflexivity.
  - destruct (scrape_url_set en); reflexivity.
Qed.









(** *** No run is lost *)














(** *** Neither request stops the other *)


















(** Each of the two sample requests is answered 201 on its own. *)
Example sample_requests_succeed_alone :
  succeeds_alone (Sample.caller "r1" Sample.service) Sample.run_request
    "p1" "d1" Sample.store
  /\ succeeds_alone (Sample.caller "r2" Sample.service) Sample.run_request
       "p1" "d1" Sample.store.
Proof. split; reflexivity. Qed.

(** ** More on the handlers *)

(** *** Who may call *)

(** Without a session every route answers 401 and touches nothing. *)
Theorem unauthenticated_refused (en : env) (w : world)
    (request : option json) (pageId etlId : string) :
  session en = None ->
  run (html_POST pageId) en w = (Some unauthorized, w)
  /\ run (learn_POST request pageId) en w = (Some unauthorized, w)
  /\ run (etl_POST request pageId) en w = (Some unauthorized, w)
  /\ run (run_POST request pageId etlId) en w = (Some unauthorized, w).
Proof.
  intros Huser.
  unfold html_POST, learn_POST, etl_POST, run_POST.
  rewrite !run_internal_error. simpl. rewrite Huser. auto.
Qed.

Lemma unauthenticated_refused_witness :
  let en := {| session := None; uuid := "x"; db_now := "t"; clock := "t";
               scrape_url_set := true; net := Sample.service |} in
  run (html_POST "p1") en Sample.store = (Some unauthorized, Sample.store)
  /\ run (learn_POST None "p1") en Sample.store
     = (Some unauthorized, Sample.store)
  /\ run (etl_POST None "p1") en Sample.store
     = (Some unauthorized, Sample.store)
  /\ run (run_POST None "p1" "d1") en Sample.store
     = (Some unauthorized, Sample.store).
Proof.
  apply (unauthenticated_refused
           {| session := None; uuid := "x"; db_now := "t"; clock := "t";
              scrape_url_set := true; net := Sample.service |}).
  reflexivity.
Defined.

(** X1. A page of somebody else is answered like a page that does not exist:
    404 from every route, nothing touched and nothing sent. *)
Theorem foreign_page_refused (en : env) (w : world) (request : option json)
    (pageId etlId uid : string) (page : page_row) :
  session en = Some uid ->
  pages w !! pageId = Some page ->
  page_user_id page <> uid ->
  run (html_POST pageId) en w = (Some page_not_found, w)
  /\ run (learn_POST request pageId) en w = (Some page_not_found, w)
  /\ run (etl_POST request pageId) en w = (Some page_not_found, w)
  /\ run (run_POST request pageId etlId) en w = (Some page_not_found, w).
Proof.
  intros Huser Hpage Hother.
  assert (Hsel : select_page w pageId uid = None).
  { unfold select_page. rewrite Hpage.
    apply String.eqb_neq in Hother. rewrite Hother.
    by rewrite andb_false_r. }
  unfold html_POST, learn_POST, etl_POST, run_POST.
  rewrite !run_internal_error. simpl. rewrite Huser. simpl.
  rewrite Hsel. auto.
Qed.

Lemma foreign_page_refused_witness :
  let en := Sample.caller "x" Sample.service in
  let w := {| pages := {["p9" := {| page_id := "p9";
                                    page_created_at := None;
                                    page_user_id := "u2";
                                    page_url := "https://else.example" |}]};
              html := ∅; etl := ∅; etl_run := ∅; calls := [] |} in
  run (html_POST "p9") en w = (Some page_not_found, w)
  /\ run (learn_POST None "p9") en w = (Some page_not_found, w)
  /\ run (etl_POST None "p9") en w = (Some page_not_found, w)
  /\ run (run_POST None "p9" "d1") en w = (Some page_not_found, w).
Proof.
  apply (foreign_page_refused (Sample.caller "x" Sample.service) _ None
           "p9" "d1" "u1"
           {| page_id := "p9"; page_created_at := None;
              page_user_id := "u2"; page_url := "https://else.example" |});
    try reflexivity; discriminate.
Defined.

(** *** Training *)

(** X2. Whatever goes wrong with the call to the learn endpoint (service
    unreachable, status outside 2xx, body not JSON, no function code in
    it), no definition is stored, the answer is an error, and the world
    differs at most by that one logged call. *)
Theorem learn_failure_persists_nothing (en : env) (w : world)
    (request : option json) (pageId : string) :
  (forall rq, generation_failure (net en (LearnEtl rq)) = true) ->
  exists resp w',
    run (learn_POST request pageId) en w = (Some resp, w')
    /\ 400 <= status resp
    /\ etl w' = etl w
    /\ (w' = w \/ exists rq, w' = log_call (LearnEtl rq) w).
Proof.
  intros Hfail.
  unfold learn_POST. rewrite run_internal_error.
  eexists _, _. split; [reflexivity|]. simpl.
  destruct (session en) as [uid|]; simpl; [|settle].
  destruct (select_page w pageId uid) as [page|]; simpl; [|settle].
  destruct request as [body_|]; simpl; [|settle].
  destruct (get_prop body_ "goal") as [goal|]; simpl; [|settle].
  destruct (get_prop body_ "html_page_run_id") as [sid|]; simpl; [|settle].
  destruct (truthy_opt goal); simpl; [|settle].
  destruct (truthy_opt sid); simpl; [|settle].
  destruct goal as [goal|]; simpl; [|settle].
  destruct sid as [sid|]; simpl; [|settle].
  destruct (select_html w sid pageId uid) as [snapshot|]; simpl; [|settle].
  destruct (scrape_url_set en); simpl; [|settle].
  match goal with
  | |- context [net en (LearnEtl ?rq)] =>
      specialize (Hfail rq); destruct (net en (LearnEtl rq)) as [msg|r]
  end; simpl; [settle|].
  simpl in Hfail.
  destruct (resp_ok r); simpl; [|settle]. simpl in Hfail.
  destruct (resp_json r) as [learnEtlData|]; simpl; [|settle].
  destruct (get_prop learnEtlData "etl_function_code") as [code|];
    simpl; [|settle].
  destruct (get_prop learnEtlData "entities_schema") as [schema|];
    simpl; [|settle].
  destruct code as [code|]; simpl in *; [|settle].
  rewrite Hfail. settle.
Qed.

Lemma learn_failure_persists_nothing_witness :
  exists resp w',
    run (learn_POST (Some (JObj [("goal", JStr "extract title");
                                 ("html_page_run_id", JStr "s1")])) "p1")
      (Sample.caller "d2" Sample.garbled) Sample.store = (Some resp, w')
    /\ 400 <= status resp
    /\ etl w' = etl Sample.store
    /\ (w' = Sample.store
        \/ exists rq, w' = log_call (LearnEtl rq) Sample.store).
Proof.
  apply (learn_failure_persists_nothing
           (Sample.caller "d2" Sample.garbled) Sample.store).
  intros rq. reflexivity.
Defined.

(** The learn route, step by step, on a request that goes through. *)
Lemma learn_POST_stores (en : env) (w : world) (body_ : json)
    (pageId uid goal sid code : string) (page : page_row)
    (snapshot : html_row) (r : http_response) (learnEtlData : json)
    (schema : option json) :
  session en = Some uid ->
  select_page w pageId uid = Some page ->
  get_prop body_ "goal" = Some (Some (JStr goal)) ->
  goal <> "" ->
  get_prop body_ "html_page_run_id" = Some (Some (JStr sid)) ->
  sid <> "" ->
  select_html w (JStr sid) pageId uid = Some snapshot ->
  scrape_url_set en = true ->
  net en (LearnEtl {| lr_url := page_url page;
                      lr_html := html_html snapshot;
                      lr_goal := JStr goal |}) = Responded r ->
  resp_ok r = true ->
  resp_json r = Some learnEtlData ->
  get_prop learnEtlData "etl_function_code" = Some (Some (JStr code)) ->
  get_prop learnEtlData "entities_schema" = Some schema ->
  blank code = false ->
  etl w !! uuid en = None ->
  let row := {| etl_id := uuid en; etl_user_id := uid; etl_page_id := pageId;
                etl_created_at := Some (db_now en); etl_name := None;
                etl_goal := goal; etl_src_code := code;
                etl_html_page_run_id := sid;
                etl_output_json_schema :=
                  match schema with
                  | Some s => if truthy s then Some s else None
                  | None => None
                  end |} in
  run (learn_POST (Some body_) pageId) en w
  = (Some (definition_created row),
     {| pages := pages w; html := html w;
        etl := <[uuid en := row]> (etl w); etl_run := etl_run w;
        calls := calls w ++ [LearnEtl {| lr_url := page_url page;
                                         lr_html := html_html snapshot;
                                         lr_goal := JStr goal |}] |})
  /\ still_training (etl_src_code row) = false.
Proof.
  intros Huser Hpage Hgoal Hgoal_ne Hsid Hsid_ne Hsnap Hset Hnet Hok Hjson
    Hcode Hschema Hblank Hfresh row.
  assert (Hcode_ne : String.eqb code "" = false).
  { destruct code; [discriminate|reflexivity]. }
  split; [|subst row; unfold still_training; simpl;
           by rewrite Hcode_ne, Hblank].
  apply select_page_Some in Hpage as Hcols. destruct Hcols as (Hpg & _ & _).
  apply String.eqb_neq in Hgoal_ne, Hsid_ne.
  unfold learn_POST. rewrite run_internal_error. simpl.
  rewrite Huser. simpl. rewrite Hpage. simpl. rewrite Hgoal, Hsid. simpl.
  rewrite Hgoal_ne, Hsid_ne. simpl. rewrite Hsnap. simpl.
  rewrite Hset, Hnet. simpl. rewrite Hok, Hjson. simpl.
  rewrite Hcode, Hschema. simpl. rewrite Hcode_ne. simpl.
  unfold insert_etl. simpl. rewrite Hpg, Hfresh. simpl.
  subst row. destruct schema as [s|]; [|reflexivity].
  destruct (truthy s) eqn:Hs; [|reflexivity].
  destruct s; try reflexivity. discriminate.
Qed.

(** X3. When the learn endpoint returns function code that is not blank, one
    definition is stored: it has the caller's goal and snapshot, the
    returned code, the returned schema (or none, when the schema is absent
    or falsy), no name, and it counts as trained.  The service was called
    once, with the page's URL, the snapshot's HTML and the goal.  Goal,
    code and schema are such as the database can hold (without the
    character U+0000). *)
Theorem learn_stores_trained_definition (en : env) (w : world) (body_ : json)
    (pageId uid goal sid code : string) (page : page_row)
    (snapshot : html_row) (r : http_response) (learnEtlData : json)
    (schema : option json) :
  session en = Some uid ->
  select_page w pageId uid = Some page ->
  get_prop body_ "goal" = Some (Some (JStr goal)) ->
  goal <> "" ->
  get_prop body_ "html_page_run_id" = Some (Some (JStr sid)) ->
  sid <> "" ->
  select_html w (JStr sid) pageId uid = Some snapshot ->
  scrape_url_set en = true ->
  net en (LearnEtl {| lr_url := page_url page;
                      lr_html := html_html snapshot;
                      lr_goal := JStr goal |}) = Responded r ->
  resp_ok r = true ->
  resp_json r = Some learnEtlData ->
  get_prop learnEtlData "etl_function_code" = Some (Some (JStr code)) ->
  get_prop learnEtlData "entities_schema" = Some schema ->
  blank code = false ->
  storable goal = true ->
  storable code = true ->
  (forall s, schema = Some s -> json_storable s = true) ->
  etl w !! uuid en = None ->
  let row := {| etl_id := uuid en; etl_user_id := uid; etl_page_id := pageId;
                etl_created_at := Some (db_now en); etl_name := None;
                etl_goal := goal; etl_src_code := code;
                etl_html_page_run_id := sid;
                etl_output_json_schema :=
                  match schema with
                  | Some s => if truthy s then Some s else None
                  | None => None
                  end |} in
  run (learn_POST (Some body_) pageId) en w
  = (Some (definition_created row),
     {| pages := pages w; html := html w;
        etl := <[uuid en := row]> (etl w); etl_run := etl_run w;
        calls := calls w ++ [LearnEtl {| lr_url := page_url page;
                                         lr_html := html_html snapshot;
                                         lr_goal := JStr goal |}] |})
  /\ still_training (etl_src_code row) = false.
Proof.
  intros Huser Hpage Hgoal Hgoal_ne Hsid Hsid_ne Hsnap Hset Hnet Hok Hjson
    Hcode Hschema Hblank _ _ _ Hfresh.
  by apply (learn_POST_stores en w body_ pageId uid goal sid code page
              snapshot r learnEtlData schema).
Qed.

Lemma learn_stores_trained_definition_witness :
  let row := {| etl_id := "d2"; etl_user_id := "u1"; etl_page_id := "p1";
                etl_created_at := Some "t3"; etl_name := None;
                etl_goal := "extract title";
                etl_src_code := "def extract(html): pass";
                etl_html_page_run_id := "s1";
                etl_output_json_schema :=
                  match Some (JObj [("title", JStr "string")]) with
                  | Some s => if truthy s then Some s else None
                  | None => None
                  end |} in
  run (handleCreateEtl "p1" "extract title" "s1")
    (Sample.caller "d2" Sample.service) Sample.store
  = (Some (definition_created row),
     {| pages := pages Sample.store; html := html Sample.store;
        etl := <["d2" := row]> (etl Sample.store);
        etl_run := etl_run Sample.store;
        calls := calls Sample.store
                 ++ [LearnEtl {| lr_url := "https://shop.example/item";
                                 lr_html := "<html>A</html>";
                                 lr_goal := JStr "extract title" |}] |})
  /\ still_training (etl_src_code row) = false.
Proof.
  apply (learn_stores_trained_definition
           (Sample.caller "d2" Sample.service) Sample.store
           (JObj [("goal", JStr "extract title");
                  ("html_page_run_id", JStr "s1")])
           "p1" "u1" "extract title" "s1" "def extract(html): pass"
           Sample.page1 Sample.snap1
           {| resp_status := 200; resp_text := "";
              resp_json := Some
                (JObj [("etl_function_code", JStr "def extract(html): pass");
                       ("entities_schema",
                        JObj [("title", JStr "string")])]) |}
           (JObj [("etl_function_code", JStr "def extract(html): pass");
                  ("entities_schema", JObj [("title", JStr "string")])])
           (Some (JObj [("title", JStr "string")])));
    try reflexivity; try discriminate.
  intros s Hs. by injection Hs as <-.
Defined.

(** X4. Both routes that create a definition check the body before anything
    else happens: without a goal the answer is 400 "Goal is required",
    with a goal but without a snapshot 400 "HTML run selection is
    required"; nothing is stored or sent. *)
Theorem definition_request_validated (en : env) (w : world) (body_ : json)
    (pageId uid : string) (page : page_row) (goal sid : option json) :
  session en = Some uid ->
  select_page w pageId uid = Some page ->
  get_prop body_ "goal" = Some goal ->
  get_prop body_ "html_page_run_id" = Some sid ->
  truthy_opt goal && truthy_opt sid = false ->
  let refusal :=
    if truthy_opt goal
    then error_response "HTML run selection is required" 400
    else error_response "Goal is required" 400 in
  run (learn_POST (Some body_) pageId) en w = (Some refusal, w)
  /\ run (etl_POST (Some body_) pageId) en w = (Some refusal, w).
Proof.
  intros Huser Hpage Hgoal Hsid Hmissing refusal. subst refusal.
  unfold learn_POST, etl_POST. rewrite !run_internal_error. simpl.
  rewrite Huser. simpl. rewrite Hpage. simpl. rewrite Hgoal, Hsid.
  destruct (truthy_opt goal); simpl in *; [|auto].
  rewrite Hmissing. auto.
Qed.

Lemma definition_request_validated_witness :
  let refusal :=
    if truthy_opt (Some (JStr "extract title"))
    then error_response "HTML run selection is required" 400
    else error_response "Goal is required" 400 in
  run (learn_POST (Some (JObj [("goal", JStr "extract title")])) "p1")
    (Sample.caller "d2" Sample.service) Sample.store
  = (Some refusal, Sample.store)
  /\ run (etl_POST (Some (JObj [("goal", JStr "extract title")])) "p1")
       (Sample.caller "d2" Sample.service) Sample.store
     = (Some refusal, Sample.store).
Proof.
  apply (definition_request_validated
           (Sample.caller "d2" Sample.service) Sample.store
           (JObj [("goal", JStr "extract title")]) "p1" "u1" Sample.page1
           (Some (JStr "extract title")) None);
    reflexivity.
Defined.

(** X5. A definition cannot be bound to a snapshot of another page: both
    routes look the snapshot up under the page of the request and answer
    404 otherwise, before the generation service is called. *)
Theorem definition_snapshot_of_other_page (en : env) (w : world)
    (body_ goal : json) (pageId uid sid : string) (page : page_row)
    (snapshot : html_row) :
  session en = Some uid ->
  select_page w pageId uid = Some page ->
  get_prop body_ "goal" = Some (Some goal) ->
  truthy goal = true ->
  get_prop body_ "html_page_run_id" = Some (Some (JStr sid)) ->
  sid <> "" ->
  html w !! sid = Some snapshot ->
  html_page_id snapshot <> pageId ->
  run (learn_POST (Some body_) pageId) en w = (Some html_run_not_found, w)
  /\ run (etl_POST (Some body_) pageId) en w = (Some html_run_not_found, w).
Proof.
  intros Huser Hpage Hgoal Hgoal_t Hsid Hsid_ne Hsnap Hother.
  assert (Hsel : select_html w (JStr sid) pageId uid = None).
  { unfold select_html. rewrite Hsnap.
    apply String.eqb_neq in Hother. rewrite Hother.
    by rewrite andb_false_r. }
  apply String.eqb_neq in Hsid_ne.
  unfold learn_POST, etl_POST. rewrite !run_internal_error. simpl.
  rewrite Huser. simpl. rewrite Hpage. simpl. rewrite Hgoal, Hsid. simpl.
  rewrite Hgoal_t, Hsid_ne. simpl. rewrite Hsel. auto.
Qed.

Lemma definition_snapshot_of_other_page_witness :
  let body_ := JObj [("goal", JStr "extract title");
                     ("html_page_run_id", JStr "s2")] in
  run (learn_POST (Some body_) "p1") (Sample.caller "d2" Sample.service)
    Sample.store = (Some html_run_not_found, Sample.store)
  /\ run (etl_POST (Some body_) "p1") (Sample.caller "d2" Sample.service)
       Sample.store = (Some html_run_not_found, Sample.store).
Proof.
  apply (definition_snapshot_of_other_page
           (Sample.caller "d2" Sample.service) Sample.store
           (JObj [("goal", JStr "extract title");
                  ("html_page_run_id", JStr "s2")])
           (JStr "extract title") "p1" "u1" "s2" Sample.page1 Sample.snap2);
    try reflexivity; discriminate.
Defined.

(** *** Running *)

(** The run route, step by step, on a request that goes through. *)
Lemma run_POST_runs (en : env) (w : world)
    (request : option json) (pageId etlId uid : string) (page : page_row)
    (etlConfig : etl_row) (html_run_id : option json) (snapshot : html_row)
    (r : http_response) (output : json) :
  session en = Some uid ->
  select_page w pageId uid = Some page ->
  select_etl w etlId pageId uid = Some etlConfig ->
  still_training (etl_src_code etlConfig) = false ->
  get_prop (run_body request) "html_run_id" = Some html_run_id ->
  select_html w (chosen_html_run html_run_id etlConfig) pageId uid
  = Some snapshot ->
  scrape_url_set en = true ->
  net en (ExecuteEtl {| ex_html := html_html snapshot;
                        ex_url := page_url page;
                        ex_goal := etl_goal etlConfig;
                        ex_code := etl_src_code etlConfig |}) = Responded r ->
  resp_ok r = true ->
  resp_json r = Some output ->
  json_storable output = true ->
  etl_run w !! uuid en = None ->
  let row := {| run_id := uuid en; run_user_id := uid;
                run_html := html_id snapshot; run_etl_id := etlId;
                run_created_at := Some (db_now en);
                run_output_json := optional_jsonb (Some output) |} in
  exists resp,
    run (run_POST request pageId etlId) en w
    = (Some resp,
       {| pages := pages w; html := html w; etl := etl w;
          etl_run := <[uuid en := row]> (etl_run w);
          calls := calls w
                   ++ [ExecuteEtl {| ex_html := html_html snapshot;
                                     ex_url := page_url page;
                                     ex_goal := etl_goal etlConfig;
                                     ex_code := etl_src_code etlConfig |}] |})
    /\ status resp = 201
    /\ get_prop (body resp) "data" = Some (Some (etl_run_row_json row))
    /\ get_prop (body resp) "etl_config"
       = Some (Some (etl_row_json etlConfig)).
Proof.
  intros Huser Hpage Hetl Hready Hbody Hsel Hset Hnet Hok Hjson Hstored
    Hfresh row.
  apply select_etl_Some in Hetl as Hcols. destruct Hcols as (Hd & _).
  apply select_html_Some in Hsel as Hcols.
  destruct Hcols as (_ & Hs & _).
  unfold run_POST. rewrite run_internal_error. simpl.
  rewrite Huser. simpl. rewrite Hpage. simpl. rewrite Hetl, Hready.
  fold (run_body request). rewrite Hbody.
  unfold chosen_html_run in Hsel.
  destruct html_run_id as [v|]; simpl; [destruct (truthy v); simpl|];
    rewrite Hsel; simpl; rewrite Hset; simpl; rewrite Hset, Hnet; simpl;
    rewrite Hok, Hjson; simpl;
    unfold insert_run; simpl; rewrite Hstored; simpl;
    rewrite Hs, Hd, Hfresh; simpl;
    (eexists; split; [reflexivity|]; simpl; auto).
Qed.

(** X6. A trained definition of the caller, a snapshot of the same page (the
    one named in the body, or the training snapshot when the body names
    none or is not JSON), and an execute endpoint that answers 2xx with
    JSON that the database can hold: the run route sends one call, carrying the snapshot's HTML, the
    page's URL and the definition's goal and code, stores one run that
    points to the snapshot and the definition and holds the output, and
    answers 201 with that run. *)
Theorem execute_runs_definition (en : env) (w : world)
    (request : option json) (pageId etlId uid : string) (page : page_row)
    (etlConfig : etl_row) (html_run_id : option json) (snapshot : html_row)
    (r : http_response) (output : json) :
  session en = Some uid ->
  select_page w pageId uid = Some page ->
  select_etl w etlId pageId uid = Some etlConfig ->
  still_training (etl_src_code etlConfig) = false ->
  get_prop (run_body request) "html_run_id" = Some html_run_id ->
  select_html w (chosen_html_run html_run_id etlConfig) pageId uid
  = Some snapshot ->
  scrape_url_set en = true ->
  net en (ExecuteEtl {| ex_html := html_html snapshot;
                        ex_url := page_url page;
                        ex_goal := etl_goal etlConfig;
                        ex_code := etl_src_code etlConfig |}) = Responded r ->
  resp_ok r = true ->
  resp_json r = Some output ->
  json_storable output = true ->
  etl_run w !! uuid en = None ->
  let row := {| run_id := uuid en; run_user_id := uid;
                run_html := html_id snapshot; run_etl_id := etlId;
                run_created_at := Some (db_now en);
                run_output_json := optional_jsonb (Some output) |} in
  exists resp,
    run (run_POST request pageId etlId) en w
    = (Some resp,
       {| pages := pages w; html := html w; etl := etl w;
          etl_run := <[uuid en := row]> (etl_run w);
          calls := calls w
                   ++ [ExecuteEtl {| ex_html := html_html snapshot;
                                     ex_url := page_url page;
                                     ex_goal := etl_goal etlConfig;
                                     ex_code := etl_src_code etlConfig |}] |})
    /\ status resp = 201
    /\ get_prop (body resp) "data" = Some (Some (etl_run_row_json row))
    /\ get_prop (body resp) "etl_config"
       = Some (Some (etl_row_json etlConfig)).
Proof.
  exact (run_POST_runs en w request pageId etlId uid page etlConfig
           html_run_id snapshot r output).
Qed.

Lemma execute_runs_definition_witness :
  let row := {| run_id := "r1"; run_user_id := "u1";
                run_html := html_id Sample.snap1; run_etl_id := "d1";
                run_created_at := Some "t3";
                run_output_json :=
                  optional_jsonb (Some (JObj [("title", JStr "x")])) |} in
  exists resp,
    run (run_POST None "p1" "d1") (Sample.caller "r1" Sample.service)
      Sample.store
    = (Some resp,
       {| pages := pages Sample.store; html := html Sample.store;
          etl := etl Sample.store;
          etl_run := <["r1" := row]> (etl_run Sample.store);
          calls := calls Sample.store
                   ++ [ExecuteEtl
                         {| ex_html := html_html Sample.snap1;
                            ex_url := page_url Sample.page1;
                            ex_goal := etl_goal Sample.def1;
                            ex_code := etl_src_code Sample.def1 |}] |})
    /\ status resp = 201
    /\ get_prop (body resp) "data" = Some (Some (etl_run_row_json row))
    /\ get_prop (body resp) "etl_config"
       = Some (Some (etl_row_json Sample.def1)).
Proof.
  apply (execute_runs_definition (Sample.caller "r1" Sample.service)
           Sample.store None "p1" "d1" "u1" Sample.page1 Sample.def1 None
           Sample.snap1
           {| resp_status := 200; resp_text := "";
              resp_json := Some (JObj [("title", JStr "x")]) |}
           (JObj [("title", JStr "x")]));
    reflexivity.
Defined.

Ltac stuck := simpl; eexists; split; [reflexivity | simpl; lia].

(** X7. Without [WEB_SCRAPE_URL] none of the routes that need the scraping
    service sends or stores anything; each answers with an error. *)
Theorem unconfigured_service_never_called (en : env) (w : world)
    (request : option json) (pageId etlId : string) :
  scrape_url_set en = false ->
  (exists resp, run (html_POST pageId) en w = (Some resp, w)
                /\ 400 <= status resp)
  /\ (exists resp, run (learn_POST request pageId) en w = (Some resp, w)
                   /\ 400 <= status resp)
  /\ (exists resp, run (run_POST request pageId etlId) en w = (Some resp, w)
                   /\ 400 <= status resp).
Proof.
  intros Hset. split; [|split].
  - unfold html_POST. rewrite run_internal_error. simpl.
    destruct (session en) as [uid|]; simpl; [|stuck].
    destruct (select_page w pageId uid) as [page|]; simpl; [|stuck].
    rewrite Hset. stuck.
  - unfold learn_POST. rewrite run_internal_error. simpl.
    destruct (session en) as [uid|]; simpl; [|stuck].
    destruct (select_page w pageId uid) as [page|]; simpl; [|stuck].
    destruct request as [body_|]; simpl; [|stuck].
    destruct (get_prop body_ "goal") as [goal|]; simpl; [|stuck].
    destruct (get_prop body_ "html_page_run_id") as [sid|]; simpl; [|stuck].
    destruct (truthy_opt goal); simpl; [|stuck].
    destruct (truthy_opt sid); simpl; [|stuck].
    destruct goal as [goal|]; simpl; [|stuck].
    destruct sid as [sid|]; simpl; [|stuck].
    destruct (select_html w sid pageId uid) as [snapshot|]; simpl; [|stuck].
    rewrite Hset. stuck.
  - unfold run_POST. rewrite run_internal_error. simpl.
    destruct (session en) as [uid|]; simpl; [|stuck].
    destruct (select_page w pageId uid) as [page|]; simpl; [|stuck].
    destruct (select_etl w etlId pageId uid) as [etlConfig|]; simpl;
      [|stuck].
    destruct (still_training (etl_src_code etlConfig)); simpl; [stuck|].
    destruct (get_prop _ "html_run_id") as [html_run_id|]; simpl; [|stuck].
    destruct (truthy_opt html_run_id).
    + destruct html_run_id as [html_run_id|]; simpl; [|stuck].
      destruct (select_html w html_run_id pageId uid); simpl; [|stuck].
      rewrite Hset. stuck.
    + simpl. destruct (select_html w _ pageId uid); simpl; [|stuck].
      rewrite Hset. stuck.
Qed.

Lemma unconfigured_service_never_called_witness :
  let en := {| session := Some "u1"; uuid := "x"; db_now := "t";
               clock := "t"; scrape_url_set := false;
               net := Sample.service |} in
  (exists resp, run (html_POST "p1") en Sample.store
                = (Some resp, Sample.store) /\ 400 <= status resp)
  /\ (exists resp, run (learn_POST None "p1") en Sample.store
                   = (Some resp, Sample.store) /\ 400 <= status resp)
  /\ (exists resp, run (run_POST None "p1" "d1") en Sample.store
                   = (Some resp, Sample.store) /\ 400 <= status resp).
Proof.
  apply (unconfigured_service_never_called
           {| session := Some "u1"; uuid := "x"; db_now := "t";
              clock := "t"; scrape_url_set := false;
              net := Sample.service |}).
  reflexivity.
Defined.

(** The run route says so itself when the service is not configured. *)
Example execute_unconfigured :
  fst (run (run_POST None "p1" "d1")
         {| session := Some "u1"; uuid := "x"; db_now := "t"; clock := "t";
            scrape_url_set := false; net := Sample.service |} Sample.store)
  = Some (error_response "Web scraping service not configured" 500).
Proof. reflexivity. Qed.

(** *** Capturing *)

(** X8. When the scraper answers outside 2xx, the snapshot route passes the
    scraper's status and text on to its caller, provided the status is one
    that a response with a body can carry (200 to 599, and not 304);
    with any other status the answer cannot be built, and the caller gets
    the 500 "Internal server error" of the handler's catch.  Nothing is
    stored either way: the world only gains the logged call. *)
Theorem snapshot_scraper_error_passed_on (en : env) (w : world)
    (pageId uid : string) (page : page_row) (r : http_response) :
  session en = Some uid ->
  select_page w pageId uid = Some page ->
  scrape_url_set en = true ->
  net en (GetHtml (page_url page)) = Responded r ->
  resp_ok r = false ->
  run (html_POST pageId) en w
  = (Some (if response_init_ok (resp_status r)
           then {| status := resp_status r;
                   body := JObj
                     [("error",
                       JStr "Failed to fetch HTML from scraping service");
                      ("details", JStr (resp_text r));
                      ("status", JNum (Z.of_nat (resp_status r)))] |}
           else error_response "Internal server error" 500),
     log_call (GetHtml (page_url page)) w).
Proof.
  intros Huser Hpage Hset Hnet Hok.
  unfold html_POST. rewrite run_internal_error. simpl.
  rewrite Huser. simpl. rewrite Hpage. simpl. rewrite Hset, Hnet. simpl.
  rewrite Hok. simpl.
  destruct (response_init_ok (resp_status r)); reflexivity.
Qed.

Lemma snapshot_scraper_error_passed_on_witness :
  run (html_POST "p1") (Sample.caller "s3" Sample.failing) Sample.store
  = (Some {| status := 500;
             body := JObj
               [("error", JStr "Failed to fetch HTML from scraping service");
                ("details", JStr "boom"); ("status", JNum 500)] |},
     log_call (GetHtml "https://shop.example/item") Sample.store).
Proof.
  apply (snapshot_scraper_error_passed_on
           (Sample.caller "s3" Sample.failing) Sample.store "p1" "u1"
           Sample.page1
           {| resp_status := 500; resp_text := "boom"; resp_json := None |});
    reflexivity.
Defined.

(** A scraper that answers 304 Not Modified: that status cannot go with a
    body, so the caller gets 500 and not 304. *)
Example snapshot_scraper_not_modified :
  fst (run (html_POST "p1")
         (Sample.caller "s3"
            (fun _ => Responded {| resp_status := 304; resp_text := "";
                                   resp_json := None |}))
         Sample.store)
  = Some (error_response "Internal server error" 500).
Proof. reflexivity. Qed.

(** ** Invariants of the store *)

(** X9. No sequence of requests changes or removes what is stored: pages,
    snapshots, definitions (with their code and schema) and runs stay as
    they are, and the log of calls is only added to. *)
Theorem stored_rows_never_change (ops : list (env * prog response))
    (w : world) :
  pages (run_all ops w) = pages w
  /\ (forall id s, html w !! id = Some s ->
                   html (run_all ops w) !! id = Some s)
  /\ (forall id d, etl w !! id = Some d ->
                   etl (run_all ops w) !! id = Some d)
  /\ (forall id r, etl_run w !! id = Some r ->
                   etl_run (run_all ops w) !! id = Some r)
  /\ calls w `prefix_of` calls (run_all ops w).
Proof.
  destruct (run_all_grows ops w) as (Hp & Hh & He & Hr & Hc).
  split; [symmetry; exact Hp|].
  split; [intros id s Hs; eapply lookup_weaken; eassumption|].
  split; [intros id d Hd; eapply lookup_weaken; eassumption|].
  split; [intros id r Hr'; eapply lookup_weaken; eassumption|exact Hc].
Qed.

Lemma no_run_insert_catch {R} (p : prog R) (r : R) :
  no_run_insert p -> no_run_insert (catch p (Ret r)).
Proof.
  induction p as [r'| |X e k IH]; simpl; auto.
  intros [He Hk]. split; [exact He|]. intros x. apply IH, Hk.
Qed.

Lemma run_no_run_insert {R} (p : prog R) (en : env) (w : world) :
  no_run_insert p -> etl_run (snd (run p en w)) = etl_run w.
Proof.
  revert w. induction p as [r| |X e k IH]; intros w; simpl; auto.
  intros [He Hk].
  pose proof (handle_etl_run e en w He) as Hstep.
  destruct (handle e en w) as [x w1]. simpl in Hstep.
  rewrite IH by apply Hk. exact Hstep.
Qed.

Ltac walk :=
  repeat (simpl;
          first [ exact I
                | reflexivity
                | split
                | intro
                | match goal with
                  | |- context [match ?x with _ => _ end] => destruct x
                  end ]).

Lemma html_POST_no_run_insert (pageId : string) :
  no_run_insert (html_POST pageId).
Proof.
  unfold html_POST, internal_error. apply no_run_insert_catch. walk.
Qed.

Lemma learn_POST_no_run_insert (request : option json) (pageId : string) :
  no_run_insert (learn_POST request pageId).
Proof.
  unfold learn_POST, internal_error. apply no_run_insert_catch. walk.
Qed.

Lemma etl_POST_no_run_insert (request : option json) (pageId : string) :
  no_run_insert (etl_POST request pageId).
Proof.
  unfold etl_POST, internal_error. apply no_run_insert_catch. walk.
Qed.

Lemma run_linked_grows (w w' : world) (r : etl_run_row) :
  grows w w' -> run_linked w r -> run_linked w' r.
Proof.
  intros (_ & Hh & He & _) (s & d & Hs & Hd & Hpage).
  exists s, d. split; [eapply lookup_weaken; eassumption|].
  split; [eapply lookup_weaken; eassumption|exact Hpage].
Qed.

Lemma runs_linked_same_runs (w w' : world) :
  grows w w' -> etl_run w' = etl_run w -> runs_linked w -> runs_linked w'.
Proof.
  intros Hgrows Hsame Hlinked k r Hr. rewrite Hsame in Hr.
  eapply run_linked_grows; [exact Hgrows|]. eapply Hlinked, Hr.
Qed.

Lemma insert_run_links (en : env) (r : run_insert) (w : world)
    (snapshot : html_row) (definition : etl_row) :
  runs_linked w ->
  html w !! ri_html r = Some snapshot ->
  etl w !! ri_etl_id r = Some definition ->
  html_page_id snapshot = etl_page_id definition ->
  runs_linked (snd (with_row (insert_run en r w) w)).
Proof.
  intros Hlinked Hs Hd Hpage. unfold insert_run. rewrite Hs, Hd.
  destruct (json_storable (ri_output_json r)); simpl; [|exact Hlinked].
  destruct (etl_run w !! uuid en) eqn:Hfresh; simpl; [exact Hlinked|].
  intros k row. simpl. rewrite lookup_insert.
  destruct (decide (uuid en = k)) as [->|Hne]; simpl.
  - intros Hrow. simplify_eq. exists snapshot, definition. simpl. auto.
  - intros Hrow. destruct (Hlinked k row Hrow) as (s & d & Hs' & Hd' & Hp).
    exists s, d. simpl. auto.
Qed.

Lemma run_POST_links (en : env) (w : world) (request : option json)
    (pageId etlId : string) :
  runs_linked w ->
  runs_linked (snd (run (run_POST request pageId etlId) en w)).
Proof.
  intros Hlinked.
  unfold run_POST. rewrite run_internal_error. simpl.
  destruct (session en) as [uid|]; simpl; [|exact Hlinked].
  destruct (select_page w pageId uid) as [page|]; simpl; [|exact Hlinked].
  destruct (select_etl w etlId pageId uid) as [etlConfig|] eqn:Hetl; simpl;
    [|exact Hlinked].
  destruct (still_training (etl_src_code etlConfig)); simpl;
    [exact Hlinked|].
  destruct (get_prop _ "html_run_id") as [html_run_id|]; simpl;
    [|exact Hlinked].
  apply select_etl_Some in Hetl as (Hd & _ & Hdpage & _).
  assert (Hcall : forall snapshot id k,
    select_html w id pageId uid = Some snapshot ->
    runs_linked (snd (run
      (await configured := ScrapeUrlSet in
       if negb configured
       then Ret (error_response "Web scraping service not configured" 500)
       else await executeResponse :=
              Fetch (ExecuteEtl {| ex_html := html_html snapshot;
                                   ex_url := page_url page;
                                   ex_goal := etl_goal etlConfig;
                                   ex_code := etl_src_code etlConfig |}) in
            match executeResponse with
            | NetworkError message =>
                Ret {| status := 503;
                       body := JObj
                         [("error",
                           JStr "Web scraping service is unavailable. Please ensure the server is running.");
                          ("details", JStr message)] |}
            | Responded executeResponse =>
                if negb (resp_ok executeResponse)
                then Ret (error_response
                            "Failed to execute ETL extraction" 500)
                else match resp_json executeResponse with
                     | None => Throw
                     | Some extractionResult =>
                         await inserted :=
                           InsertRun {| ri_html := html_id snapshot;
                                        ri_etl_id := etlId;
                                        ri_output_json := extractionResult;
                                        ri_user_id := uid |} in
                         match inserted with
                         | inl _ =>
                             Ret (error_response
                                    "Failed to save extraction run" 500)
                         | inr etlRun => Ret (k etlRun)
                         end
                     end
            end) en w))).
  { intros snapshot id k Hsel.
    apply select_html_Some in Hsel as (_ & Hs & Hspage & _).
    simpl. destruct (scrape_url_set en) eqn:Hset; simpl; [|exact Hlinked].
    rewrite Hset.
    destruct (net en (ExecuteEtl _)) as [message|r]; simpl; [exact Hlinked|].
    destruct (resp_ok r); simpl; [|exact Hlinked].
    destruct (resp_json r) as [output|]; simpl; [|exact Hlinked].
    match goal with
    | |- context [with_row (insert_run en ?ri ?w1) ?w1] =>
        pose proof (insert_run_links en ri w1 snapshot etlConfig Hlinked
                      Hs Hd (eq_trans Hspage (eq_sym Hdpage))) as Hins;
        destruct (with_row (insert_run en ri w1) w1) as [[e|row] w2]
    end; exact Hins. }
  destruct (truthy_opt html_run_id).
  - destruct html_run_id as [html_run_id|]; simpl; [|exact Hlinked].
    destruct (select_html w html_run_id pageId uid) as [snapshot|] eqn:Hsel;
      simpl; [|exact Hlinked].
    apply (Hcall snapshot html_run_id (fun etlRun => _) Hsel).
  - simpl.
    destruct (select_html w (JStr (etl_html_page_run_id etlConfig)) pageId uid)
      as [snapshot|] eqn:Hsel; simpl; [|exact Hlinked].
    apply (Hcall snapshot _ (fun etlRun => _) Hsel).
Qed.

(** X10. Every stored run points to a stored snapshot and a stored definition
    of one and the same page, and no sequence of requests to the four
    routes breaks this. *)
Theorem runs_stay_linked (requests : list (env * route)) (w : world) :
  runs_linked w -> runs_linked (serve_all requests w).
Proof.
  unfold serve_all. revert w.
  induction requests as [|[en r] rest IH]; intros w Hlinked; simpl;
    [exact Hlinked|].
  apply IH.
  destruct r as [pageId|request pageId|request pageId|request pageId etlId];
    simpl.
  - eapply runs_linked_same_runs; [apply run_grows| |exact Hlinked].
    apply run_no_run_insert, html_POST_no_run_insert.
  - eapply runs_linked_same_runs; [apply run_grows| |exact Hlinked].
    apply run_no_run_insert, learn_POST_no_run_insert.
  - eapply runs_linked_same_runs; [apply run_grows| |exact Hlinked].
    apply run_no_run_insert, etl_POST_no_run_insert.
  - apply run_POST_links, Hlinked.
Qed.

Lemma runs_stay_linked_witness :
  runs_linked
    (serve_all [(Sample.caller "r1" Sample.service, RunPost None "p1" "d1");
                (Sample.caller "s3" Sample.service, HtmlPost "p1")]
       Sample.store).
Proof.
  apply (runs_stay_linked
           [(Sample.caller "r1" Sample.service, RunPost None "p1" "d1");
            (Sample.caller "s3" Sample.service, HtmlPost "p1")]
           Sample.store).
  intros k r Hr. simpl in Hr. by rewrite lookup_empty in Hr.
Defined.

(** ** Requests on their own and in company *)

(** A request that runs with nobody else around ends, after finitely many
    steps, with the answer and the world of the sequential reading. *)
Theorem alone_as_sequential (p : prog response) (en : env) (w : world) :
  exists n,
    thread_steps n en (Running p) w
    = (Done (fst (run p en w)), snd (run p en w)).
Proof.
  revert w. induction p as [r| |X e k IH]; intros w.
  - exists 1. reflexivity.
  - exists 1. reflexivity.
  - destruct e;
      try (simpl;
           match goal with
           | |- context [run (k ?x) en ?w1] =>
               destruct (IH x w1) as (n & Hn); exists (S n); exact Hn
           end).
    + simpl.
      destruct (with_row (insert_html en r w) w) as [x w1] eqn:E.
      destruct (IH x w1) as (n & Hn). exists (S n). simpl.
      rewrite E. exact Hn.
    + simpl.
      destruct (with_row (insert_etl en fields w) w) as [x w1] eqn:E.
      destruct (IH x w1) as (n & Hn). exists (S n). simpl.
      rewrite E. exact Hn.
    + simpl.
      destruct (with_row (insert_run en r w) w) as [x w1] eqn:E.
      destruct (IH x w1) as (n & Hn). exists (S n). simpl.
      rewrite E. exact Hn.
    + simpl. destruct (scrape_url_set en) eqn:Hset.
      * destruct (IH (net en c) (log_call c w)) as (n & Hn).
        exists (S (S n)). simpl. rewrite Hset. exact Hn.
      * destruct (IH (NetworkError "Invalid URL") w) as (n & Hn).
        exists (S n). simpl. rewrite Hset. exact Hn.
Qed.

(** *** Every run request is answered *)

Lemma answers_within_mono {R} (n m : nat) (p : prog R) :
  n <= m -> answers_within n p -> answers_within m p.
Proof.
  revert n m. induction p as [r| |X e k IH]; intros n m Hle; simpl.
  - lia.
  - auto.
  - intros [Hcost Hk]. split; [lia|].
    intros x. eapply IH; [|apply Hk]. lia.
Qed.

Lemma ends_within_catch {R} (n : nat) (p : prog R) (r : R) :
  ends_within n p -> answers_within n (catch p (Ret r)).
Proof.
  revert n. induction p as [r'| |X e k IH]; intros n; simpl; auto.
  intros [Hcost Hk]. split; [exact Hcost|]. intros x. apply IH, Hk.
Qed.

Lemma run_POST_answers_within (request : option json)
    (pageId etlId : string) :
  answers_within 9 (run_POST request pageId etlId).
Proof.
  unfold run_POST, internal_error. apply ends_within_catch.
  repeat (simpl;
          first [ lia
                | split
                | intro
                | match goal with
                  | |- context [match ?x with _ => _ end] => destruct x
                  end ]).
Qed.

Lemma thread_step_answers (en : env) (t : thread) (w : world) (n : nat) :
  thread_answers_within n t ->
  thread_answers_within (n - 1) (fst (thread_step en t w)).
Proof.
  destruct t as [p|c k|[r|]]; simpl; auto.
  - destruct p as [r| |X e k]; simpl; auto.
    intros [Hcost Hk].
    destruct e; simpl in *;
      try (destruct (with_row _ w) as [x w'] eqn:E; simpl);
      try apply Hk.
    destruct (scrape_url_set en); simpl.
    + split; [lia|]. intros x.
      replace (n - 1 - 1) with (n - 2) by lia. apply Hk.
    + eapply answers_within_mono; [|apply Hk]. lia.
  - intros [_ Hk]. apply Hk.
Qed.

Lemma thread_answers_zero (t : thread) :
  thread_answers_within 0 t -> exists r, t = Done (Some r).
Proof.
  destruct t as [p|c k|[r|]]; simpl.
  - destruct p as [r| |X e k]; simpl; try lia; try tauto.
  - lia.
  - eauto.
  - tauto.
Qed.

Lemma first_answered (schedule : list bool) (pl : pool) (w : world)
    (n : nat) :
  thread_answers_within n (first pl) ->
  n <= first_turns schedule ->
  exists r, first (fst (run_schedule schedule pl w)) = Done (Some r).
Proof.
  revert pl w n. induction schedule as [|turn rest IH]; intros pl w n Hn Hle.
  - unfold first_turns in Hle. simpl in *.
    assert (n = 0) as -> by lia. by apply thread_answers_zero.
  - simpl. unfold pool_step. destruct turn.
    + destruct (thread_step (second_env pl) (second pl) w) as [t w'].
      apply (IH _ w' n); [exact Hn|exact Hle].
    + pose proof (thread_step_answers (first_env pl) (first pl) w n Hn)
        as Hstep.
      destruct (thread_step (first_env pl) (first pl) w) as [t w'].
      apply (IH _ w' (n - 1)); [exact Hstep|].
      unfold first_turns in *. simpl in Hle. lia.
Qed.

(** X11. A request to the run route is answered once it has had nine turns,
    whatever the other request is and does in between: no request waits
    for another. *)
Theorem run_request_answered (en other_env : env) (other : thread)
    (request : option json) (pageId etlId : string) (schedule : list bool)
    (w : world) :
  9 <= first_turns schedule ->
  let start := {| first_env := en;
                  first := Running (run_POST request pageId etlId);
                  second_env := other_env;
                  second := other |} in
  exists resp,
    answered (first (fst (run_schedule schedule start w))) = Some resp.
Proof.
  intros Hturns start.
  destruct (first_answered schedule start w 9) as (r & Hr).
  - apply run_POST_answers_within.
  - exact Hturns.
  - exists r. by rewrite Hr.
Qed.

Lemma run_request_answered_witness :
  exists resp,
    answered
      (first (fst (run_schedule
                     (Sample.until_in_flight ++ Sample.to_the_end)
                     Sample.two_runs Sample.store)))
    = Some resp.
Proof.
  apply (run_request_answered (Sample.caller "r1" Sample.service)
           (Sample.caller "r2" Sample.service)
           (Running (run_POST Sample.run_request "p1" "d1"))
           Sample.run_request "p1" "d1"
           (Sample.until_in_flight ++ Sample.to_the_end) Sample.store).
  vm_compute. lia.
Defined.

(** ** Training, then running *)

(** X12. A definition that the learn route has just stored with code that is
    not blank can be run at once: a request to run it without naming a
    snapshot is not refused as "still being trained", works on the
    snapshot the definition was trained on, sends the stored code to the
    execute endpoint, and stores a run of that definition.  What the
    services return, and the goal, is such as the database can hold
    (without the character U+0000). *)
Theorem learned_definition_runs (en en2 : env) (w : world) (body_ : json)
    (pageId uid goal sid code : string) (page : page_row)
    (snapshot : html_row) (r r2 : http_response) (learnEtlData output : json)
    (schema : option json) :
  session en = Some uid ->
  select_page w pageId uid = Some page ->
  get_prop body_ "goal" = Some (Some (JStr goal)) ->
  goal <> "" ->
  get_prop body_ "html_page_run_id" = Some (Some (JStr sid)) ->
  sid <> "" ->
  select_html w (JStr sid) pageId uid = Some snapshot ->
  scrape_url_set en = true ->
  net en (LearnEtl {| lr_url := page_url page;
                      lr_html := html_html snapshot;
                      lr_goal := JStr goal |}) = Responded r ->
  resp_ok r = true ->
  resp_json r = Some learnEtlData ->
  get_prop learnEtlData "etl_function_code" = Some (Some (JStr code)) ->
  get_prop learnEtlData "entities_schema" = Some schema ->
  blank code = false ->
  storable goal = true ->
  storable code = true ->
  (forall s, schema = Some s -> json_storable s = true) ->
  etl w !! uuid en = None ->
  session en2 = Some uid ->
  scrape_url_set en2 = true ->
  net en2 (ExecuteEtl {| ex_html := html_html snapshot;
                         ex_url := page_url page;
                         ex_goal := goal;
                         ex_code := code |}) = Responded r2 ->
  resp_ok r2 = true ->
  resp_json r2 = Some output ->
  json_storable output = true ->
  etl_run w !! uuid en2 = None ->
  let w1 := snd (run (learn_POST (Some body_) pageId) en w) in
  let result := run (run_POST None pageId (uuid en)) en2 w1 in
  exists resp,
    fst result = Some resp
    /\ status resp = 201
    /\ etl_run (snd result) !! uuid en2
       = Some {| run_id := uuid en2; run_user_id := uid; run_html := sid;
                 run_etl_id := uuid en;
                 run_created_at := Some (db_now en2);
                 run_output_json := optional_jsonb (Some output) |}.
Proof.
  intros Huser Hpage Hgoal Hgoal_ne Hsid Hsid_ne Hsnap Hset Hnet Hok Hjson
    Hcode Hschema Hblank _ _ _ Hfresh Huser2 Hset2 Hnet2 Hok2 Hjson2
    Hstored2 Hfresh2 w1 result.
  destruct (learn_POST_stores en w body_ pageId uid goal sid
              code page snapshot r learnEtlData schema Huser Hpage Hgoal
              Hgoal_ne Hsid Hsid_ne Hsnap Hset Hnet Hok Hjson Hcode Hschema
              Hblank Hfresh) as [Hlearn Hready].
  subst result w1. rewrite Hlearn. cbn [snd].
  set (row := {| etl_id := uuid en; etl_user_id := uid;
                 etl_page_id := pageId;
                 etl_created_at := Some (db_now en); etl_name := None;
                 etl_goal := goal; etl_src_code := code;
                 etl_html_page_run_id := sid;
                 etl_output_json_schema :=
                   match schema with
                   | Some s => if truthy s then Some s else None
                   | None => None
                   end |}) in *.
  set (w1 := {| pages := pages w; html := html w;
                etl := <[uuid en := row]> (etl w); etl_run := etl_run w;
                calls := calls w ++ [LearnEtl {| lr_url := page_url page;
                                                 lr_html := html_html snapshot;
                                                 lr_goal := JStr goal |}] |}).
  apply select_html_Some in Hsnap as Hcols.
  destruct Hcols as (Hid & _). injection Hid as Hid.
  destruct (run_POST_runs en2 w1 None pageId (uuid en) uid page
              row None snapshot r2 output) as (resp & Hrun & H201 & _);
    try assumption; try reflexivity.
  - unfold select_etl. subst w1. simpl. rewrite lookup_insert_eq.
    subst row. simpl. by rewrite !String.eqb_refl.
  - rewrite Hrun. exists resp. split; [reflexivity|].
    split; [exact H201|]. cbn [snd etl_run]. rewrite lookup_insert_eq.
    by rewrite <- Hid.
Qed.

Lemma learned_definition_runs_witness :
  let w1 := snd (run (learn_POST
                        (Some (JObj [("goal", JStr "extract title");
                                     ("html_page_run_id", JStr "s1")]))
                        "p1")
                   (Sample.caller "d2" Sample.service) Sample.store) in
  let result := run (run_POST None "p1" "d2")
                  (Sample.caller "r1" Sample.service) w1 in
  exists resp,
    fst result = Some resp
    /\ status resp = 201
    /\ etl_run (snd result) !! "r1"
       = Some {| run_id := "r1"; run_user_id := "u1"; run_html := "s1";
                 run_etl_id := "d2"; run_created_at := Some "t3";
                 run_output_json :=
                   optional_jsonb (Some (JObj [("title", JStr "x")])) |}.
Proof.
  apply (learned_definition_runs
           (Sample.caller "d2" Sample.service)
           (Sample.caller "r1" Sample.service) Sample.store
           (JObj [("goal", JStr "extract title");
                  ("html_page_run_id", JStr "s1")])
           "p1" "u1" "extract title" "s1" "def extract(html): pass"
           Sample.page1 Sample.snap1
           {| resp_status := 200; resp_text := "";
              resp_json := Some
                (JObj [("etl_function_code", JStr "def extract(html): pass");
                       ("entities_schema",
                        JObj [("title", JStr "string")])]) |}
           {| resp_status := 200; resp_text := "";
              resp_json := Some (JObj [("title", JStr "x")]) |}
           (JObj [("etl_function_code", JStr "def extract(html): pass");
                  ("entities_schema", JObj [("title", JStr "string")])])
           (JObj [("title", JStr "x")])
           (Some (JObj [("title", JStr "string")])));
    try reflexivity; try discriminate.
  intros s Hs. by injection Hs as <-.
Defined.

(** ** The runs shown under a definition *)

(** X13. Which runs the page shows under a definition: the definition must be
    among the loaded ones; a run that carries a definition is shown under
    that definition only; a run that carries none is shown under every
    definition, provided its snapshot is one of the page's. *)
Theorem runs_listed_under_definition (etls : list etl_row)
    (etlRuns : list etl_run_row) (htmlRuns : list html_row)
    (etlId : string) (run : etl_run_row) :
  In run (getRunsForEtl (Some etls) (Some etlRuns) htmlRuns etlId)
  <-> (exists d, In d etls /\ etl_id d = etlId)
      /\ In run etlRuns
      /\ (if String.eqb (run_etl_id run) ""
          then In (run_html run) (map html_id htmlRuns)
          else run_etl_id run = etlId).
Proof.
  unfold getRunsForEtl.
  destruct (List.find (fun e => String.eqb (etl_id e) etlId) etls)
    as [d|] eqn:Hfind.
  - apply find_some in Hfind as [Hin Hid]. apply String.eqb_eq in Hid.
    rewrite filter_In. split.
    + intros [Hrun Hkeep]. split; [eauto|]. split; [exact Hrun|].
      destruct (String.eqb (run_etl_id run) ""); simpl in Hkeep.
      * apply existsb_exists in Hkeep as (id & Hid_in & Heq).
        apply String.eqb_eq in Heq. by subst.
      * by apply String.eqb_eq.
    + intros (_ & Hrun & Hkeep). split; [exact Hrun|].
      destruct (String.eqb (run_etl_id run) ""); simpl.
      * apply existsb_exists. exists (run_html run).
        split; [exact Hkeep|apply String.eqb_refl].
      * by apply String.eqb_eq.
  - split; [intros []|]. intros ((d & Hin & Hid) & _).
    apply (find_none _ _ Hfind) in Hin.
    apply String.eqb_neq in Hin. contradiction.
Qed.

(** ** Deleting a page *)

Lemma pg_uuid_nonempty (text key : string) :
  pg_uuid text = Some key -> String.eqb text "" = false.
Proof. destruct text; [discriminate|reflexivity]. Qed.

(** X14. Deleting one's page takes its snapshots and definitions with it, and
    the runs that point to them; the rows of other pages stay as they are,
    the runs among them, and nothing is added.  Afterwards nothing of the
    page can be read back.  The page is named by any text that the
    database reads as its identifier. *)
Theorem page_delete_cascades (en : env) (w : world)
    (pageId key uid : string) (page : page_row) :
  session en = Some uid ->
  pg_uuid pageId = Some key ->
  select_page w key uid = Some page ->
  let w' := snd (pages_DELETE (Some pageId) en w) in
  fst (pages_DELETE (Some pageId) en w) = page_deleted
  /\ (forall user, select_page w' key user = None)
  /\ (forall sid user, select_html w' sid key user = None)
  /\ (forall etlId user, select_etl w' etlId key user = None)
  /\ (forall k r s, etl_run w' !! k = Some r ->
                    html w !! run_html r = Some s ->
                    html_page_id s <> key)
  /\ (forall k r d, etl_run w' !! k = Some r ->
                    etl w !! run_etl_id r = Some d ->
                    etl_page_id d <> key)
  /\ (forall k s, html w !! k = Some s -> html_page_id s <> key ->
                  html w' !! k = Some s)
  /\ (forall k d, etl w !! k = Some d -> etl_page_id d <> key ->
                  etl w' !! k = Some d)
  /\ (forall k r, etl_run w !! k = Some r ->
                  (forall s, html w !! run_html r = Some s ->
                             html_page_id s <> key) ->
                  (forall d, etl w !! run_etl_id r = Some d ->
                             etl_page_id d <> key) ->
                  etl_run w' !! k = Some r)
  /\ (forall other, other <> key -> pages w' !! other = pages w !! other)
  /\ html w' ⊆ html w
  /\ etl w' ⊆ etl w
  /\ etl_run w' ⊆ etl_run w
  /\ calls w' = calls w.
Proof.
  intros Huser Hkey Hpage w'. subst w'.
  unfold pages_DELETE. rewrite Huser.
  rewrite (pg_uuid_nonempty _ _ Hkey), Hkey. simpl.
  unfold delete_page. rewrite Hpage.
  split; [reflexivity|].
  split.
  { intros user. unfold select_page. simpl. by rewrite lookup_delete_eq. }
  split.
  { intros sid user. unfold select_html. simpl.
    destruct sid as [| | |i| |]; try reflexivity.
    destruct (filter _ (html w) !! i) as [s|] eqn:E; [|reflexivity].
    apply map_lookup_filter_Some in E as [_ Hkeep]. simpl in Hkeep.
    apply String.eqb_neq in Hkeep. rewrite Hkeep.
    by rewrite andb_false_r. }
  split.
  { intros etlId user. unfold select_etl. simpl.
    destruct (filter _ (etl w) !! etlId) as [d|] eqn:E; [|reflexivity].
    apply map_lookup_filter_Some in E as [_ Hkeep]. simpl in Hkeep.
    apply String.eqb_neq in Hkeep. rewrite Hkeep.
    by rewrite andb_false_r. }
  split.
  { intros k r s Hr Hs. simpl in Hr.
    apply map_lookup_filter_Some in Hr as [_ [Hhtml _]]. simpl in Hhtml.
    unfold html_on_page in Hhtml. rewrite Hs in Hhtml.
    by apply String.eqb_neq. }
  split.
  { intros k r d Hr Hd. simpl in Hr.
    apply map_lookup_filter_Some in Hr as [_ [_ Hetl]]. simpl in Hetl.
    unfold etl_on_page in Hetl. rewrite Hd in Hetl.
    by apply String.eqb_neq. }
  split.
  { intros k s Hs Hkeep. simpl. by apply map_lookup_filter_Some. }
  split.
  { intros k d Hd Hkeep. simpl. by apply map_lookup_filter_Some. }
  split.
  { intros k r Hr Hsnap Hdef. simpl.
    apply map_lookup_filter_Some. split; [exact Hr|]. simpl. split.
    - unfold html_on_page.
      destruct (html w !! run_html r) as [s|] eqn:Hs; [|reflexivity].
      apply String.eqb_neq. by apply Hsnap.
    - unfold etl_on_page.
      destruct (etl w !! run_etl_id r) as [d|] eqn:Hd; [|reflexivity].
      apply String.eqb_neq. by apply Hdef. }
  split.
  { intros other Hother. simpl. by apply lookup_delete_ne. }
  simpl. split; [apply map_filter_subseteq|].
  split; [apply map_filter_subseteq|].
  split; [apply map_filter_subseteq|reflexivity].
Qed.

Lemma page_delete_cascades_witness :
  let en := Library.caller Library.owner in
  let w := Library.store in
  let key := Library.page_a in
  let w' := snd (pages_DELETE (Some Library.page_a) en w) in
  fst (pages_DELETE (Some Library.page_a) en w) = page_deleted
  /\ (forall user, select_page w' key user = None)
  /\ (forall sid user, select_html w' sid key user = None)
  /\ (forall etlId user, select_etl w' etlId key user = None)
  /\ (forall k r s, etl_run w' !! k = Some r ->
                    html w !! run_html r = Some s ->
                    html_page_id s <> key)
  /\ (forall k r d, etl_run w' !! k = Some r ->
                    etl w !! run_etl_id r = Some d ->
                    etl_page_id d <> key)
  /\ (forall k s, html w !! k = Some s -> html_page_id s <> key ->
                  html w' !! k = Some s)
  /\ (forall k d, etl w !! k = Some d -> etl_page_id d <> key ->
                  etl w' !! k = Some d)
  /\ (forall k r, etl_run w !! k = Some r ->
                  (forall s, html w !! run_html r = Some s ->
                             html_page_id s <> key) ->
                  (forall d, etl w !! run_etl_id r = Some d ->
                             etl_page_id d <> key) ->
                  etl_run w' !! k = Some r)
  /\ (forall other, other <> key -> pages w' !! other = pages w !! other)
  /\ html w' ⊆ html w
  /\ etl w' ⊆ etl w
  /\ etl_run w' ⊆ etl_run w
  /\ calls w' = calls w.
Proof.
  apply (page_delete_cascades (Library.caller Library.owner) Library.store
           Library.page_a Library.page_a Library.owner
           (Library.page_of Library.page_a "https://shop.example/a"));
    vm_compute; reflexivity.
Defined.

(** The sample store after the first page was deleted: its snapshot, its
    definition and its run are gone, those of the second page are
    there. *)
Example page_delete_sample :
  let w' := snd (pages_DELETE (Some Library.page_a)
                   (Library.caller Library.owner) Library.store) in
  pages w' !! Library.page_a = None
  /\ html w' !! Library.snap_a = None
  /\ etl w' !! Library.def_a = None
  /\ etl_run w' !! Library.run_a = None
  /\ html w' !! Library.snap_b = html Library.store !! Library.snap_b
  /\ etl w' !! Library.def_b = etl Library.store !! Library.def_b
  /\ etl_run w' !! Library.run_b
     = Some (Library.run_of Library.run_b Library.snap_b Library.def_b).
Proof. vm_compute. repeat split. Qed.

(** The identifier written in upper case and in braces names the same
    page. *)
Example page_delete_other_spelling :
  pages_DELETE (Some Library.page_a_upper) (Library.caller Library.owner)
    Library.store
  = pages_DELETE (Some Library.page_a) (Library.caller Library.owner)
      Library.store.
Proof. vm_compute. reflexivity. Qed.

(** X15. Deleting a page that is not one's own, or that does not exist, is
    answered as a success all the same, and deletes nothing; a text that
    is no identifier at all makes the query fail: it is answered 400, and
    nothing is deleted either. *)
Theorem page_delete_of_foreign_page (en : env) (w : world)
    (pageId uid : string) :
  session en = Some uid ->
  pageId <> "" ->
  (forall key, pg_uuid pageId = Some key -> select_page w key uid = None) ->
  exists resp,
    pages_DELETE (Some pageId) en w = (resp, w)
    /\ match pg_uuid pageId with
       | Some _ => resp = page_deleted
       | None => status resp = 400
       end.
Proof.
  intros Huser Hne Hpage. unfold pages_DELETE. rewrite Huser.
  apply String.eqb_neq in Hne. rewrite Hne.
  destruct (pg_uuid pageId) as [key|].
  - unfold delete_page. rewrite (Hpage key eq_refl). by eexists.
  - by eexists.
Qed.

Lemma page_delete_of_foreign_page_witness :
  exists resp,
    pages_DELETE (Some Library.page_a) (Library.caller Library.stranger)
      Library.store
    = (resp, Library.store)
    /\ match pg_uuid Library.page_a with
       | Some _ => resp = page_deleted
       | None => status resp = 400
       end.
Proof.
  apply (page_delete_of_foreign_page (Library.caller Library.stranger)
           Library.store Library.page_a Library.stranger).
  - reflexivity.
  - discriminate.
  - intros key Hkey. vm_compute in Hkey. injection Hkey as <-.
    vm_compute. reflexivity.
Defined.

(** The stranger's request, as it is answered. *)
Example page_delete_by_stranger :
  pages_DELETE (Some Library.page_a) (Library.caller Library.stranger)
    Library.store
  = (page_deleted, Library.store).
Proof. vm_compute. reflexivity. Qed.

(** A text that is no identifier: the database refuses the query. *)
Example page_delete_malformed :
  pages_DELETE (Some "p1") (Library.caller Library.owner) Library.store
  = (error_response (invalid_uuid "p1") 400, Library.store).
Proof. reflexivity. Qed.

(** X16. Deleting a page keeps every remaining run linked to a remaining
    snapshot and a remaining definition of one page. *)
Theorem page_delete_keeps_links (id : option string) (en : env)
    (w : world) :
  runs_linked w -> runs_linked (snd (pages_DELETE id en w)).
Proof.
  intros Hlinked. unfold pages_DELETE.
  destruct (session en) as [uid|]; [|exact Hlinked].
  destruct id as [pageId|]; [|exact Hlinked].
  destruct (String.eqb pageId ""); [exact Hlinked|].
  destruct (pg_uuid pageId) as [key|]; [|exact Hlinked]. simpl.
  unfold delete_page.
  destruct (select_page w key uid); [|exact Hlinked].
  intros k r Hr. simpl in Hr.
  apply map_lookup_filter_Some in Hr as [Hr [Hhtml Hetl]].
  simpl in Hhtml, Hetl.
  destruct (Hlinked k r Hr) as (s & d & Hs & Hd & Hsame).
  unfold html_on_page in Hhtml. rewrite Hs in Hhtml.
  unfold etl_on_page in Hetl. rewrite Hd in Hetl.
  apply String.eqb_neq in Hhtml, Hetl.
  exists s, d. simpl.
  split; [by apply map_lookup_filter_Some|].
  split; [by apply map_lookup_filter_Some|exact Hsame].
Qed.

Lemma library_runs_linked : runs_linked Library.store.
Proof.
  intros k r Hr. simpl in Hr.
  apply lookup_insert_Some in Hr as [[<- <-]|[_ Hr]].
  - exists (Library.snapshot_of Library.snap_a Library.page_a),
      (Library.definition_of Library.def_a Library.page_a Library.snap_a).
    vm_compute. auto.
  - apply lookup_singleton_Some in Hr as [<- <-].
    exists (Library.snapshot_of Library.snap_b Library.page_b),
      (Library.definition_of Library.def_b Library.page_b Library.snap_b).
    vm_compute. auto.
Qed.

Lemma page_delete_keeps_links_witness :
  runs_linked
    (snd (pages_DELETE (Some Library.page_a) (Library.caller Library.owner)
            Library.store)).
Proof.
  apply (page_delete_keeps_links (Some Library.page_a)
           (Library.caller Library.owner) Library.store).
  exact library_runs_linked.
Defined.
